(** * facturation-pro-js: the client of src/lib/index.ts

    A shallow embedding of the [FacturationPro] class: the rate-limit
    bookkeeping done by the axios response interceptors and by the timer
    they arm, the two token methods, the endpoint methods and
    [checkFacturationProRateLimit].

    The network, the OAuth2 library, the clock and the event loop are the
    environment: a method takes the clock reading and the outcome that axios
    hands to the response interceptors as arguments, and returns the new
    world together with the way the promise settles.  A world is what
    belongs to one client; the clients of one process share the axios
    instance, so each handles the responses of all. *)

From Stdlib Require Import ZArith Ascii String SpecFloat.
From stdpp Require Import gmap strings pretty.

#[local] Set Warnings "-register-all".
Local Open Scope Z_scope.

(** ** The JavaScript values the client touches *)

Module JS.

(** The numbers held by [requestRemaining] and the numeric identifiers put
    in URLs: an integer, kept as a [Z], or NaN.  A JavaScript number is a
    double: it holds every safe integer ([safe_integer] below) exactly, and
    on safe integers [sub], [parseInt] and [number_to_string] are the
    operations of JavaScript.  Beyond that range a double rounds, prints in
    another form or is infinite, which this type does not follow: where a
    theorem about the client gives the value of one of these operations, it
    is stated for safe integers; the lemmas about the operations themselves
    are facts of these definitions. *)
Inductive number :=
  | Int (z : Z)
  | NaN.

Definition is_integer (n : number) : bool :=
  match n with Int _ => true | NaN => false end.

(** [a - b], exact while the operands and the result are safe integers *)
Definition sub (a b : number) : number :=
  match a, b with
  | Int x, Int y => Int (x - y)
  | _, _ => NaN
  end.

(** [a >= b]: false as soon as one side is NaN *)
Definition ge (a b : number) : bool :=
  match a, b with
  | Int x, Int y => y <=? x
  | _, _ => false
  end.

(** ToString of a number, as a template literal applies it: a safe integer
    prints all its digits.  (A double past 2^53 prints its shortest
    digits, and from 10^21 on in exponent form.) *)
Definition number_to_string (n : number) : string :=
  match n with
  | Int z => pretty z
  | NaN => "NaN"
  end.

(** [Number.MAX_SAFE_INTEGER], that is 2^53 - 1 *)
Definition MAX_SAFE_INTEGER : Z := 9007199254740991.

(** [Number.isSafeInteger] on an integer *)
Definition safe_integer (z : Z) : Prop :=
  - MAX_SAFE_INTEGER <= z <= MAX_SAFE_INTEGER.

(** The numbers whose ToString is [number_to_string] *)
Definition printable (n : number) : Prop :=
  match n with
  | Int z => safe_integer z
  | NaN => True
  end.

(** ToString of a value that is a string or [undefined] *)
Definition to_string (v : option string) : string :=
  match v with
  | Some s => s
  | None => "undefined"
  end.

(** ToBoolean of a value that is a string or [undefined] *)
Definition truthy_string (v : option string) : bool :=
  match v with
  | Some EmptyString => false
  | Some _ => true
  | None => false
  end.

(** White space that [parseInt] skips, for strings of code units below 256
    (header values are decoded byte by byte). *)
Definition is_white_space (c : ascii) : bool :=
  let n := nat_of_ascii c in
  Nat.eqb n 9 || Nat.eqb n 10 || Nat.eqb n 11 || Nat.eqb n 12
  || Nat.eqb n 13 || Nat.eqb n 32 || Nat.eqb n 160.

Fixpoint trim_start (s : string) : string :=
  match s with
  | String c rest => if is_white_space c then trim_start rest else s
  | EmptyString => EmptyString
  end.

Definition digit_value (c : ascii) : option Z :=
  let n := nat_of_ascii c in
  if Nat.leb 48 n && Nat.leb n 57 then Some (Z.of_nat n - 48) else None.

(** The value of the longest prefix of decimal digits; [acc] is [None]
    until a digit has been read. *)
Fixpoint parse_digits (s : string) (acc : option Z) : option Z :=
  match s with
  | String c rest =>
      match digit_value c with
      | Some d => parse_digits rest (Some (10 * default 0 acc + d))
      | None => acc
      end
  | EmptyString => acc
  end.

(** [parseInt(input, 10)]: the integer the digits write; it is the number
    JavaScript returns when that integer is safe (a longer digit string is
    rounded to a double there). *)
Definition parseInt (input : string) : number :=
  let s := trim_start input in
  let '(sign, body) :=
    match s with
    | String "-" rest => (-1, rest)
    | String "+" rest => (1, rest)
    | _ => (1, s)
    end in
  match parse_digits body None with
  | Some n => Int (sign * n)
  | None => NaN
  end.

(** What a response body can be after axios has decoded it; a number of
    the body is a double. *)
Inductive value :=
  | VUndefined
  | VNull
  | VBool (b : bool)
  | VNumber (f : spec_float)
  | VString (s : string)
  | VArray (items : list value)
  | VObject (fields : gmap string value).

(** ToBoolean *)
Definition truthy (v : value) : bool :=
  match v with
  | VUndefined | VNull => false
  | VBool b => b
  | VNumber (S754_zero _) | VNumber S754_nan => false
  | VNumber _ => true
  | VString EmptyString => false
  | VString _ => true
  | VArray _ | VObject _ => true
  end.

(** [v.firms]: a TypeError ([None]) on [undefined] and [null], the own
    property of an object, and [undefined] on everything else (no
    prototype has a property of that name). *)
Definition prop_firms (v : value) : option value :=
  match v with
  | VUndefined | VNull => None
  | VObject fields => Some (default VUndefined (fields !! "firms"))
  | _ => Some VUndefined
  end.

(** *** Date: the time value in milliseconds, [None] for NaN *)
Record Date := mkDate { time_value : option Z }.

Definition TimeClip (t : option Z) : option Z :=
  match t with
  | Some z => if Z.abs z <=? 8640000000000000 then Some z else None
  | None => None
  end.

Definition getTime (d : Date) : option Z := time_value d.

(** [d.setTime(t)]: the object as mutated, and the returned time value *)
Definition setTime (d : Date) (t : option Z) : Date * option Z :=
  let v := TimeClip t in (mkDate v, v).

(** [new Date()] at clock reading [now] *)
Definition Date_now (now : Z) : Date := mkDate (Some now).

(** [new Date(t)] for a number [t] *)
Definition Date_of_number (t : option Z) : Date := mkDate (TimeClip t).

(** [t + ms] on time values *)
Definition plus_ms (t : option Z) (ms : Z) : option Z :=
  match t with
  | Some z => Some (z + ms)
  | None => None
  end.

(** [a < b] on dates: both are converted to their time value *)
Definition date_lt (a b : Date) : bool :=
  match time_value a, time_value b with
  | Some x, Some y => x <? y
  | _, _ => false
  end.

End JS.

Import JS.

(** ** What axios exchanges with the client *)

Module Axios.

Inductive http_method := GET | POST.

(** A request as the client hands it to axios: [req_data] is [VUndefined]
    when no body is given, [req_responseType] is [None] for the config
    [{}]. *)
Record request := mkRequest {
  req_method : http_method;
  req_url : string;
  req_data : value;
  req_responseType : option string
}.

(** [headers] is [None] when the field is undefined; a header that is not
    there reads as [None] ([undefined]). *)
Record response := mkResponse {
  status : Z;
  headers : option (gmap string string);
  data : value
}.

(** A rejection reason, an object: [isAxiosError] is the truth value of
    that field and [err_response] is [None] when no response came. *)
Record error := mkError {
  isAxiosError : bool;
  err_response : option response;
  message : string
}.

(** What axios passes to the response interceptors *)
Inductive outcome :=
  | Fulfilled (r : response)
  | Failed (e : error).

(** How a promise settles *)
Inductive settled (A : Type) :=
  | Resolved (a : A)
  | Rejected (e : error).
Arguments Resolved {A} a.
Arguments Rejected {A} e.

(** [p.then(f)] for an [f] that returns a plain value *)
Definition then_ {A B : Type} (p : settled A) (f : A -> B) : settled B :=
  match p with
  | Resolved a => Resolved (f a)
  | Rejected e => Rejected e
  end.

(** [await p] followed by a continuation that may throw *)
Definition await {A B : Type} (p : settled A) (k : A -> settled B) : settled B :=
  match p with
  | Resolved a => k a
  | Rejected e => Rejected e
  end.

End Axios.

Import Axios.

(** ** The OAuth2 library, as far as the client uses it *)

Inductive Scope := read | read_write.

Definition scope_name (s : Scope) : string :=
  match s with read => "read" | read_write => "read_write" end.

Record FacturationProOptions := mkOptions {
  clientId : string;
  clientSecret : string;
  redirectUri : string;
  scope : Scope
}.

Record ClientOAuth2 := mkClientOAuth2 {
  oauth_clientId : string;
  oauth_clientSecret : string;
  accessTokenUri : string;
  authorizationUri : string;
  oauth_redirectUri : string;
  scopes : list string
}.

(** The arguments of [createToken(access, refresh, type, data)], which only
    builds the token object. *)
Record Token := mkToken {
  tok_access : string;
  tok_refresh : string;
  tok_type : string
}.

Definition createToken (access refresh type : string) : Token :=
  mkToken access refresh type.

(** The requests of the OAuth2 library are outside the repository: how
    [code.getToken(uri)] and [token.refresh()] settle is given by the
    environment. *)
Record OAuthEnv := mkOAuthEnv {
  code_getToken : ClientOAuth2 -> string -> settled Token;
  token_refresh : ClientOAuth2 -> Token -> settled Token
}.

(** ** The client *)

Definition ACCESS_TOKEN_URI : string := "https://www.facturation.pro/oauth/token".
Definition AUTHORIZATION_URI : string := "https://www.facturation.pro/oauth/authorize".
Definition API_BASE_URL : string := "https://www.facturation.pro".

Record FacturationPro := mkFacturationPro {
  requestRemaining : number;
  lastRequest : Date;
  facturationOauth2 : ClientOAuth2
}.

(** The client with what belongs to it: the deadlines of its pending
    timers (the callbacks that act on this client) in the order they were
    armed, and the requests it handed to axios so far. *)
Record world := mkWorld {
  self : FacturationPro;
  timers : list Z;
  sent : list request
}.

Definition set_requestRemaining (n : number) (w : world) : world :=
  mkWorld (mkFacturationPro n (lastRequest (self w)) (facturationOauth2 (self w)))
          (timers w) (sent w).

Definition set_lastRequest (d : Date) (w : world) : world :=
  mkWorld (mkFacturationPro (requestRemaining (self w)) d (facturationOauth2 (self w)))
          (timers w) (sent w).

(** [setTimeout(callback, 1000 * 60)] at clock reading [now] *)
Definition resetRequestRemainingTimeout (now : Z) (w : world) : world :=
  mkWorld (self w) (timers w ++ [now + 1000 * 60]) (sent w).

(** The callback of the timer, run at clock reading [now]: [setTime] writes
    the shifted time into the date held by [lastRequest]. *)
Definition timer_callback (now : Z) (w : world) : world :=
  let '(mutated, t) :=
    setTime (lastRequest (self w)) (plus_ms (getTime (lastRequest (self w))) (1000 * 60)) in
  let lastRequestAddMinute := Date_of_number t in
  let w1 := set_lastRequest mutated w in
  if date_lt lastRequestAddMinute (Date_now now)
  then set_requestRemaining (Int 600) w1
  else w1.

(** The event loop runs the oldest pending timer, and never before its
    deadline. *)
Definition fire_timer (now : Z) (w : world) : world :=
  match timers w with
  | due :: rest =>
      if due <=? now
      then timer_callback now (mkWorld (self w) rest (sent w))
      else w
  | [] => w
  end.

Definition RATELIMIT_HEADER : string := "x-ratelimit-remaining".

(** The first function given to [axios.interceptors.response.use] *)
Definition on_fulfilled (now : Z) (r : response) (w : world) : world * settled response :=
  let w1 :=
    match headers r with
    | Some h =>
        if truthy_string (h !! RATELIMIT_HEADER)
        then set_requestRemaining (parseInt (to_string (h !! RATELIMIT_HEADER))) w
        else w
    | None => w
    end in
  let w2 := set_lastRequest (Date_now now) w1 in
  let w3 := resetRequestRemainingTimeout now w2 in
  (w3, Resolved r).

(** The second function given to [axios.interceptors.response.use] *)
Definition on_rejected (now : Z) (e : error) (w : world) : world * settled response :=
  let w1 :=
    if isAxiosError e
    then match err_response e with
         | Some r =>
             match headers r with
             | Some h => set_requestRemaining (parseInt (to_string (h !! RATELIMIT_HEADER))) w
             | None => w
             end
         | None => w
         end
    else w in
  let w2 := resetRequestRemainingTimeout now w1 in
  (w2, Rejected e).

Definition response_interceptors (now : Z) (o : outcome) (w : world) : world * settled response :=
  match o with
  | Fulfilled r => on_fulfilled now r w
  | Failed e => on_rejected now e w
  end.

(** A request through axios: it is handed over, and its outcome goes through
    the response interceptors at clock reading [now].  [w] is the world at
    the moment the response is handled; the request may have been handed
    over earlier, which only the place of [req] in the log would show. *)
Definition axios_request (req : request) (now : Z) (o : outcome) (w : world)
  : world * settled response :=
  response_interceptors now o (mkWorld (self w) (timers w) (sent w ++ [req])).

Definition axios_get (url : string) (responseType : option string) :=
  axios_request (mkRequest GET url VUndefined responseType).

Definition axios_post (url : string) (body : value) :=
  axios_request (mkRequest POST url body None).

(** [new FacturationPro(options)] at clock reading [now]; [create] returns
    it.  The two functions are registered on the axios instance that the
    whole process shares, so they also run on the responses to requests
    made elsewhere: see [OtherResponse] and [process] below. *)
Definition create (options : FacturationProOptions) (now : Z) : world :=
  mkWorld
    (mkFacturationPro (Int 600) (Date_now now)
       (mkClientOAuth2 (clientId options) (clientSecret options)
          ACCESS_TOKEN_URI AUTHORIZATION_URI (redirectUri options)
          [scope_name (scope options)]))
    [] [].

(** *** Token methods *)

Definition getTokenFromUri (env : OAuthEnv) (uri : string) (w : world)
  : world * settled Token :=
  let w1 := set_requestRemaining (sub (requestRemaining (self w)) (Int 1)) w in
  (w1, code_getToken env (facturationOauth2 (self w1)) uri).

Definition getNewAccessToken (env : OAuthEnv) (refreshToken : string) (w : world)
  : world * settled Token :=
  let token := createToken "" refreshToken "Bearer" in
  let w1 := set_requestRemaining (sub (requestRemaining (self w)) (Int 1)) w in
  (w1, token_refresh env (facturationOauth2 (self w1)) token).

(** *** Endpoint methods

    The last three arguments are the environment: the clock reading when
    the response is handled, what axios hands to the interceptors, and the
    world the call starts in. *)

Definition responseHandler (axiosResponse : response) : value := data axiosResponse.

Record CustomersOptions := mkCustomersOptions { api_id : number }.

Definition getCustomersByFirmId (firmId : number) (options : CustomersOptions)
    (accessToken : string) (now : Z) (o : outcome) (w : world) : world * settled value :=
  let '(w', p) :=
    axios_get (API_BASE_URL +:+ "/firms/" +:+ number_to_string firmId
               +:+ "/customers.json?access_token=" +:+ accessToken
               +:+ "&api_id=" +:+ number_to_string (api_id options))
              None now o w in
  (w', then_ p responseHandler).

(** What reading a property of [undefined] or [null] throws *)
Definition TypeError : error :=
  mkError false None "Cannot read properties of undefined (reading 'firms')".

Definition getFirms (accessToken : string) (now : Z) (o : outcome) (w : world)
  : world * settled value :=
  let '(w', p) :=
    axios_get (API_BASE_URL +:+ "/account.json?access_token=" +:+ accessToken)
              None now o w in
  (w', await (then_ p responseHandler) (fun account =>
         if truthy account
         then match prop_firms account with
              | Some firms => Resolved firms
              | None => Rejected TypeError
              end
         else Resolved (VArray []))).

Definition createCustomer (firmId : number) (customer : value) (accessToken : string)
    (now : Z) (o : outcome) (w : world) : world * settled value :=
  let '(w', p) :=
    axios_post (API_BASE_URL +:+ "/firms/" +:+ number_to_string firmId
                +:+ "/customers.json?access_token=" +:+ accessToken)
               customer now o w in
  (w', then_ p responseHandler).

Definition getInvoicesByFirmId (firmId : number) (accessToken : string)
    (now : Z) (o : outcome) (w : world) : world * settled value :=
  let '(w', p) :=
    axios_get (API_BASE_URL +:+ "/firms/" +:+ number_to_string firmId
               +:+ "/invoices.json?access_token=" +:+ accessToken)
              None now o w in
  (w', then_ p responseHandler).

Definition getInvoiceById (firmId invoiceId : number) (accessToken : string)
    (now : Z) (o : outcome) (w : world) : world * settled value :=
  let '(w', p) :=
    axios_get (API_BASE_URL +:+ "/firms/" +:+ number_to_string firmId
               +:+ "/invoices/" +:+ number_to_string invoiceId
               +:+ ".json?access_token=" +:+ accessToken)
              None now o w in
  (w', then_ p responseHandler).

Definition createInvoice (firmId : number) (invoice : value) (accessToken : string)
    (now : Z) (o : outcome) (w : world) : world * settled value :=
  let '(w', p) :=
    axios_post (API_BASE_URL +:+ "/firms/" +:+ number_to_string firmId
                +:+ "/invoices.json?access_token=" +:+ accessToken)
               invoice now o w in
  (w', then_ p responseHandler).

Definition createCredit (firmId invoiceId : number) (accessToken : string)
    (now : Z) (o : outcome) (w : world) : world * settled value :=
  let '(w', p) :=
    axios_post (API_BASE_URL +:+ "/firms/" +:+ number_to_string firmId
                +:+ "/invoices/" +:+ number_to_string invoiceId
                +:+ "/refund.json?access_token=" +:+ accessToken)
               VUndefined now o w in
  (w', then_ p responseHandler).

Definition checkFacturationProRateLimit (requestNumber : number) (w : world)
  : world * bool :=
  (w, ge (requestRemaining (self w)) requestNumber).

(** [responseType] is [None] for [null]; the config carries it only when it
    is truthy. *)
Definition download (firmId invoiceId : number) (responseType : option string)
    (accessToken : string) (now : Z) (o : outcome) (w : world)
  : world * settled response :=
  let config := if truthy_string responseType then responseType else None in
  axios_get (API_BASE_URL +:+ "/firms/" +:+ number_to_string firmId
             +:+ "/invoices/" +:+ number_to_string invoiceId
             +:+ ".pdf?original=1&access_token=" +:+ accessToken)
            config now o w.

(** ** Properties of one call, as the statements below use them *)

(** The method hands exactly the request [req] to axios, once. *)
Definition issues_exactly {A : Type}
    (m : Z -> outcome -> world -> world * settled A) (req : request) : Prop :=
  forall now o w, sent (fst (m now o w)) = sent w ++ [req].

(** The promise of the method resolves with the body of the response. *)
Definition resolves_with_body
    (m : Z -> outcome -> world -> world * settled value) : Prop :=
  forall now r w, snd (m now (Fulfilled r) w) = Resolved (data r).

(** The promise of the method is rejected with the error axios got. *)
Definition rejects_with_cause {A : Type}
    (m : Z -> outcome -> world -> world * settled A) : Prop :=
  forall now e w, snd (m now (Failed e) w) = Rejected e.

(** The method hands exactly one request to axios, with method [meth] and
    body [body]. *)
Definition issues_one {A : Type}
    (m : Z -> outcome -> world -> world * settled A) (meth : http_method) (body : value)
  : Prop :=
  forall now o w, exists url responseType,
    sent (fst (m now o w)) = sent w ++ [mkRequest meth url body responseType].

(** When the request of the method fails with an axios error that has a
    response with headers, the call leaves in [requestRemaining] what
    [parseInt] makes of the rate-limit header of that response. *)
Definition reads_header_on_failure {A : Type}
    (m : Z -> outcome -> world -> world * settled A) : Prop :=
  forall now e r h w,
    isAxiosError e = true -> err_response e = Some r -> headers r = Some h ->
    requestRemaining (self (fst (m now (Failed e) w)))
    = parseInt (to_string (h !! RATELIMIT_HEADER)).

(** The client and the timers after the call are what the response
    interceptors alone leave. *)
Definition touches_only_through_interceptors {A : Type}
    (m : Z -> outcome -> world -> world * settled A) : Prop :=
  forall now o w,
    self (fst (m now o w)) = self (fst (response_interceptors now o w)) /\
    timers (fst (m now o w)) = timers (fst (response_interceptors now o w)).

(** The step from [w] to [w'] subtracts one from [requestRemaining] (a safe
    integer [z] becomes [z - 1]) and changes nothing else. *)
Definition decrements_only (w w' : world) : Prop :=
  requestRemaining (self w') = sub (requestRemaining (self w)) (Int 1) /\
  (forall z, requestRemaining (self w) = Int z -> safe_integer z ->
             requestRemaining (self w') = Int (z - 1)) /\
  lastRequest (self w') = lastRequest (self w) /\
  facturationOauth2 (self w') = facturationOauth2 (self w) /\
  timers w' = timers w /\
  sent w' = sent w.

(** ** Sample data *)

Definition sample_options : FacturationProOptions :=
  mkOptions "id" "secret" "https://app.example/callback" read_write.

Definition response_with_remaining (n : string) (body : value) : response :=
  mkResponse 200 (Some {[ RATELIMIT_HEADER := n ]}) body.

(** An error response whose headers do not give the rate limit *)
Definition not_found : error :=
  mkError true (Some (mkResponse 404 (Some ∅) (VString "Not Found")))
          "Request failed with status code 404".

Definition network_error : error := mkError true None "Network Error".

Definition oauth_ok : OAuthEnv :=
  mkOAuthEnv (fun _ _ => Resolved (mkToken "access" "refresh" "bearer"))
             (fun _ _ => Resolved (mkToken "access2" "refresh2" "bearer")).

Definition oauth_down : OAuthEnv :=
  mkOAuthEnv (fun _ _ => Rejected network_error) (fun _ _ => Rejected network_error).


Definition rate_limited : error :=
  mkError true
    (Some (mkResponse 429 (Some {[ RATELIMIT_HEADER := "0" ]})
             (VString "Too Many Requests")))
    "Request failed with status code 429".

(** One response at 0 ms, then silence; the timer runs 1 ms late. *)
Definition one_request_then_quiet : world :=
  let w0 := create sample_options 0 in
  let w1 := fst (getInvoicesByFirmId (Int 1) "tok" 0
                   (Fulfilled (response_with_remaining "599" (VArray []))) w0) in
  fire_timer 60001 w1.

(** Responses at 0 ms and at 1000 ms, then silence; each of the two timers
    runs 1 ms after its deadline. *)
Definition two_requests_then_quiet : world :=
  let w0 := create sample_options 0 in
  let w1 := fst (getInvoicesByFirmId (Int 1) "tok" 0
                   (Fulfilled (response_with_remaining "599" (VArray []))) w0) in
  let w2 := fst (getInvoicesByFirmId (Int 1) "tok" 1000
                   (Fulfilled (response_with_remaining "598" (VArray []))) w1) in
  let w3 := fire_timer 60001 w2 in
  fire_timer 61001 w3.

Definition account_body : value :=
  VObject {[ "firms" := VArray [VString "Acme"] ]}.


(** ** Sequences of uses

    What happens to one client, one step after the other: the calls of its
    methods (an endpoint call carries the clock reading and the outcome of
    its request), the responses to requests made elsewhere in the process,
    which its interceptors handle as well, and the runs of its timers. *)

(** [rest] does not go on with a decimal digit, so that [parseInt] stops
    in front of it. *)
Definition stops_digits (rest : string) : Prop :=
  match rest with
  | String c _ => digit_value c = None
  | EmptyString => True
  end.

(** [s] is the decimal writing of a safe integer, possibly followed by
    text that does not start with a digit. *)
Definition decimal (s : string) : Prop :=
  exists z rest,
    safe_integer z /\ s = number_to_string (Int z) +:+ rest /\ stops_digits rest.

(** The callback of the timer run once per clock reading of [nows], with no
    response in between. *)
Definition run_checks (nows : list Z) (w : world) : world :=
  fold_left (fun w' now => timer_callback now w') nows w.

Inductive call :=
  | CallGetTokenFromUri (env : OAuthEnv) (uri : string)
  | CallGetNewAccessToken (env : OAuthEnv) (refreshToken : string)
  | CallGetCustomersByFirmId (firmId : number) (options : CustomersOptions)
      (accessToken : string) (now : Z) (o : outcome)
  | CallGetFirms (accessToken : string) (now : Z) (o : outcome)
  | CallCreateCustomer (firmId : number) (customer : value) (accessToken : string)
      (now : Z) (o : outcome)
  | CallGetInvoicesByFirmId (firmId : number) (accessToken : string) (now : Z) (o : outcome)
  | CallGetInvoiceById (firmId invoiceId : number) (accessToken : string)
      (now : Z) (o : outcome)
  | CallCreateInvoice (firmId : number) (invoice : value) (accessToken : string)
      (now : Z) (o : outcome)
  | CallCreateCredit (firmId invoiceId : number) (accessToken : string)
      (now : Z) (o : outcome)
  | CallCheckFacturationProRateLimit (requestNumber : number)
  | CallDownload (firmId invoiceId : number) (responseType : option string)
      (accessToken : string) (now : Z) (o : outcome)
  | OtherResponse (now : Z) (o : outcome)
  | TimerFires (now : Z).

Definition step (c : call) (w : world) : world :=
  match c with
  | CallGetTokenFromUri env uri => fst (getTokenFromUri env uri w)
  | CallGetNewAccessToken env refreshToken => fst (getNewAccessToken env refreshToken w)
  | CallGetCustomersByFirmId firmId options accessToken now o =>
      fst (getCustomersByFirmId firmId options accessToken now o w)
  | CallGetFirms accessToken now o => fst (getFirms accessToken now o w)
  | CallCreateCustomer firmId customer accessToken now o =>
      fst (createCustomer firmId customer accessToken now o w)
  | CallGetInvoicesByFirmId firmId accessToken now o =>
      fst (getInvoicesByFirmId firmId accessToken now o w)
  | CallGetInvoiceById firmId invoiceId accessToken now o =>
      fst (getInvoiceById firmId invoiceId accessToken now o w)
  | CallCreateInvoice firmId invoice accessToken now o =>
      fst (createInvoice firmId invoice accessToken now o w)
  | CallCreateCredit firmId invoiceId accessToken now o =>
      fst (createCredit firmId invoiceId accessToken now o w)
  | CallCheckFacturationProRateLimit requestNumber =>
      fst (checkFacturationProRateLimit requestNumber w)
  | CallDownload firmId invoiceId responseType accessToken now o =>
      fst (download firmId invoiceId responseType accessToken now o w)
  | OtherResponse now o => fst (response_interceptors now o w)
  | TimerFires now => fire_timer now w
  end.

Definition run (cs : list call) (w : world) : world :=
  fold_left (fun w' c => step c w') cs w.

Definition is_token_call (c : call) : bool :=
  match c with
  | CallGetTokenFromUri _ _ | CallGetNewAccessToken _ _ => true
  | _ => false
  end.

(** The clock reading and the outcome of the request of an endpoint call *)
Definition request_outcome (c : call) : option (Z * outcome) :=
  match c with
  | CallGetCustomersByFirmId _ _ _ now o | CallGetFirms _ now o
  | CallCreateCustomer _ _ _ now o | CallGetInvoicesByFirmId _ _ now o
  | CallGetInvoiceById _ _ _ now o | CallCreateInvoice _ _ _ now o
  | CallCreateCredit _ _ _ now o | CallDownload _ _ _ _ now o => Some (now, o)
  | _ => None
  end.

(** The clock reading and the outcome of the response that the
    interceptors of the client handle during the step: that of its own
    endpoint call, or one from elsewhere in the process *)
Definition response_handled (c : call) : option (Z * outcome) :=
  match c with
  | OtherResponse now o => Some (now, o)
  | _ => request_outcome c
  end.



(** Whenever an interceptor would parse the rate-limit header of [o], the
    header is there and is a decimal integer. *)
Definition numeric_outcome (o : outcome) : Prop :=
  match o with
  | Fulfilled r =>
      forall h, headers r = Some h ->
        truthy_string (h !! RATELIMIT_HEADER) = true ->
        exists s, h !! RATELIMIT_HEADER = Some s /\ decimal s
  | Failed e =>
      isAxiosError e = true ->
      forall r h, err_response e = Some r -> headers r = Some h ->
        exists s, h !! RATELIMIT_HEADER = Some s /\ decimal s
  end.

Definition numeric_call (c : call) : Prop :=
  match response_handled c with
  | Some (_, o) => numeric_outcome o
  | None => True
  end.

(** ** Several clients in one process

    One world per client created, in the order of creation: its fields, its
    pending timers and the requests it sent.  The interceptors of all of
    them sit on the shared axios instance. *)

Abbreviation process := (list world).

(** Client [i] takes step [c]; when the step has a response handled, the
    interceptors of every other client run on that response too. *)
Definition process_step (i : nat) (c : call) (p : process) : process :=
  match p !! i with
  | Some _ =>
      imap (fun j w =>
              if Nat.eqb j i then step c w
              else match response_handled c with
                   | Some (now, o) => step (OtherResponse now o) w
                   | None => w
                   end) p
  | None => p
  end.

Definition two_clients : process :=
  [create sample_options 0; create sample_options 1000].

(** ** Tactics for the endpoint methods *)

Ltac open_endpoint :=
  unfold getCustomersByFirmId, createCustomer, getInvoicesByFirmId, getInvoiceById,
    createInvoice, createCredit, download, axios_get, axios_post.

Ltac open_getFirms :=
  unfold getFirms, axios_get;
  match goal with
  | |- context [axios_request ?req ?now ?o ?w] =>
      destruct (axios_request req now o w) as [w' p] eqn:Hreq
  end.

(** ** Facts about the JavaScript layer *)

Example parseInt_digits : parseInt "599" = Int 599.
Proof. reflexivity. Qed.

Example parseInt_prefix : parseInt "  42 requests" = Int 42.
Proof. reflexivity. Qed.

Example parseInt_negative : parseInt "-7" = Int (-7).
Proof. reflexivity. Qed.

Example parseInt_empty : parseInt "" = NaN.
Proof. reflexivity. Qed.


Lemma sub_one_integer (z : Z) : sub (Int z) (Int 1) = Int (z - 1).
Proof. reflexivity. Qed.

Lemma sub_one_NaN : sub NaN (Int 1) = NaN.
Proof. reflexivity. Qed.

Lemma ge_true_iff (a : number) (n : Z) :
  ge a (Int n) = true <-> exists z, a = Int z /\ n <= z.
Proof.
  destruct a as [z|]; simpl.
  - rewrite Z.leb_le. split.
    + intros Hle. exists z. auto.
    + intros (z' & Heq & Hle). injection Heq as ->. exact Hle.
  - split; [discriminate | intros (z & Heq & _); discriminate].
Qed.

Lemma parseInt_undefined : parseInt (to_string None) = NaN.
Proof. reflexivity. Qed.

Lemma truthy_prop_firms (v : value) :
  truthy v = true -> exists firms, prop_firms v = Some firms.
Proof.
  destruct v; simpl; intros Ht; try discriminate; eauto.
Qed.

Lemma TimeClip_in_range (z : Z) :
  Z.abs z <= 8640000000000000 -> TimeClip (Some z) = Some z.
Proof.
  intros Hz. unfold TimeClip.
  destruct (Z.leb_spec (Z.abs z) 8640000000000000) as [_|Hgt]; [reflexivity | lia].
Qed.

(** ** Facts about axios requests and the interceptors *)

Lemma interceptors_settle (now : Z) (o : outcome) (w : world) :
  snd (response_interceptors now o w) =
  match o with Fulfilled r => Resolved r | Failed e => Rejected e end.
Proof. destruct o; reflexivity. Qed.

Lemma on_fulfilled_sent (now : Z) (r : response) (w : world) :
  sent (fst (on_fulfilled now r w)) = sent w.
Proof.
  unfold on_fulfilled. simpl.
  destruct (headers r) as [h|]; [|reflexivity].
  destruct (truthy_string (h !! RATELIMIT_HEADER)); reflexivity.
Qed.

Lemma on_rejected_sent (now : Z) (e : error) (w : world) :
  sent (fst (on_rejected now e w)) = sent w.
Proof.
  unfold on_rejected. simpl.
  destruct (isAxiosError e); [|reflexivity].
  destruct (err_response e) as [r|]; [|reflexivity].
  destruct (headers r); reflexivity.
Qed.

Lemma interceptors_sent (now : Z) (o : outcome) (w : world) :
  sent (fst (response_interceptors now o w)) = sent w.
Proof. destruct o; [apply on_fulfilled_sent | apply on_rejected_sent]. Qed.

(** The interceptors read the client and the timers, never the log. *)
Lemma interceptors_ignore_sent (now : Z) (o : outcome) (w : world) (log : list request) :
  self (fst (response_interceptors now o (mkWorld (self w) (timers w) log)))
    = self (fst (response_interceptors now o w)) /\
  timers (fst (response_interceptors now o (mkWorld (self w) (timers w) log)))
    = timers (fst (response_interceptors now o w)).
Proof.
  destruct o as [r|e]; simpl.
  - unfold on_fulfilled; simpl.
    destruct (headers r) as [h|]; [|split; reflexivity].
    destruct (truthy_string (h !! RATELIMIT_HEADER)); split; reflexivity.
  - unfold on_rejected; simpl.
    destruct (isAxiosError e); [|split; reflexivity].
    destruct (err_response e) as [r|]; [|split; reflexivity].
    destruct (headers r); split; reflexivity.
Qed.

Lemma axios_request_sent (req : request) (now : Z) (o : outcome) (w : world) :
  sent (fst (axios_request req now o w)) = sent w ++ [req].
Proof. unfold axios_request. rewrite interceptors_sent. reflexivity. Qed.

Lemma axios_request_settles (req : request) (now : Z) (o : outcome) (w : world) :
  snd (axios_request req now o w) =
  match o with Fulfilled r => Resolved r | Failed e => Rejected e end.
Proof. unfold axios_request. apply interceptors_settle. Qed.

Lemma axios_request_client (req : request) (now : Z) (o : outcome) (w : world) :
  self (fst (axios_request req now o w)) = self (fst (response_interceptors now o w)) /\
  timers (fst (axios_request req now o w)) = timers (fst (response_interceptors now o w)).
Proof. unfold axios_request. apply interceptors_ignore_sent. Qed.

(** A method of the shape [axios.get(...).then(f)] keeps the world of the
    request and maps the promise. *)
Lemma then_request_fst {B : Type} (req : request) (f : response -> B)
    (now : Z) (o : outcome) (w : world) :
  fst (let '(w', p) := axios_request req now o w in (w', then_ p f))
  = fst (axios_request req now o w).
Proof. destruct (axios_request req now o w); reflexivity. Qed.

Lemma then_request_snd {B : Type} (req : request) (f : response -> B)
    (now : Z) (o : outcome) (w : world) :
  snd (let '(w', p) := axios_request req now o w in (w', then_ p f))
  = then_ (snd (axios_request req now o w)) f.
Proof. destruct (axios_request req now o w); reflexivity. Qed.

(** ** Facts about the timer *)

(** Whatever the clock says, the callback moves [lastRequest] one minute
    forward. *)
Lemma timer_callback_lastRequest (now : Z) (w : world) :
  lastRequest (self (timer_callback now w))
  = mkDate (TimeClip (plus_ms (time_value (lastRequest (self w))) 60000)).
Proof.
  unfold timer_callback, setTime, getTime. simpl.
  destruct (date_lt _ _); reflexivity.
Qed.

Lemma timer_callback_resets (now t : Z) (w : world) :
  time_value (lastRequest (self w)) = Some t ->
  Z.abs (t + 60000) <= 8640000000000000 ->
  t + 60000 < now ->
  requestRemaining (self (timer_callback now w)) = Int 600.
Proof.
  intros Ht Hrange Hlate.
  unfold timer_callback, setTime, getTime, Date_of_number. rewrite Ht.
  change (plus_ms (Some t) (1000 * 60)) with (Some (t + 60000)).
  rewrite !(TimeClip_in_range _ Hrange).
  unfold date_lt, Date_now. simpl.
  destruct (Z.ltb_spec (t + 60000) now) as [_|Hge]; [reflexivity | lia].
Qed.

Lemma timer_callback_keeps (now t : Z) (w : world) :
  time_value (lastRequest (self w)) = Some t ->
  now <= t + 60000 ->
  requestRemaining (self (timer_callback now w)) = requestRemaining (self w).
Proof.
  intros Ht Hearly.
  unfold timer_callback, setTime, getTime, Date_of_number. rewrite Ht.
  change (plus_ms (Some t) (1000 * 60)) with (Some (t + 60000)).
  unfold TimeClip.
  destruct (Z.abs (t + 60000) <=? 8640000000000000) eqn:Hclip;
    [rewrite Hclip | reflexivity].
  unfold date_lt, Date_now. simpl.
  destruct (Z.ltb_spec (t + 60000) now) as [Hlt|_]; [lia | reflexivity].
Qed.

(** The intended behaviour, in the one case where the code has it: a single
    response, no timer pending before it, and a timer that runs late. *)
Lemma single_response_then_reset (t now : Z) (r : response) (w : world) :
  timers w = [] ->
  Z.abs (t + 60000) <= 8640000000000000 ->
  t + 60000 < now ->
  requestRemaining (self (fire_timer now (fst (on_fulfilled t r w)))) = Int 600.
Proof.
  intros Hnone Hrange Hlate.
  assert (Htimers : timers (fst (on_fulfilled t r w)) = [t + 60000]).
  { unfold on_fulfilled. simpl. destruct (headers r) as [h|]; simpl.
    - destruct (truthy_string (h !! RATELIMIT_HEADER)); simpl; rewrite Hnone; reflexivity.
    - rewrite Hnone. reflexivity. }
  assert (Hlast : time_value (lastRequest (self (fst (on_fulfilled t r w)))) = Some t).
  { unfold on_fulfilled. reflexivity. }
  unfold fire_timer. rewrite Htimers.
  destruct (Z.leb_spec (t + 60000) now) as [_|Hgt]; [|lia].
  apply (timer_callback_resets now t); [exact Hlast | exact Hrange | exact Hlate].
Qed.

Lemma TimeClip_idempotent (t : option Z) : TimeClip (TimeClip t) = TimeClip t.
Proof.
  destruct t as [z|]; [|reflexivity]. unfold TimeClip.
  destruct (Z.abs z <=? 8640000000000000) eqn:Hclip; [rewrite Hclip|]; reflexivity.
Qed.

(** The check, for every state and clock reading: the reset depends on the
    time held in [lastRequest] alone. *)
Lemma timer_callback_requestRemaining (now : Z) (w : world) :
  requestRemaining (self (timer_callback now w)) =
  match TimeClip (plus_ms (time_value (lastRequest (self w))) 60000) with
  | Some shifted => if shifted <? now then Int 600 else requestRemaining (self w)
  | None => requestRemaining (self w)
  end.
Proof.
  unfold timer_callback, setTime, getTime, Date_of_number, date_lt, Date_now.
  cbn [time_value]. rewrite TimeClip_idempotent.
  change (1000 * 60) with 60000.
  destruct (TimeClip (plus_ms (time_value (lastRequest (self w))) 60000)) as [shifted|];
    [|reflexivity].
  destruct (shifted <? now); reflexivity.
Qed.

Lemma timer_callback_timers (now : Z) (w : world) :
  timers (timer_callback now w) = timers w.
Proof.
  unfold timer_callback, setTime. simpl. destruct (date_lt _ _); reflexivity.
Qed.

Lemma fire_timer_due (now due : Z) (rest : list Z) (w : world) :
  timers w = due :: rest -> due <= now ->
  fire_timer now w = timer_callback now (mkWorld (self w) rest (sent w)).
Proof.
  intros Htimers Hdue. unfold fire_timer. rewrite Htimers.
  destruct (Z.leb_spec due now) as [_|Hgt]; [reflexivity | lia].
Qed.

Lemma on_fulfilled_timers (now : Z) (r : response) (w : world) :
  timers (fst (on_fulfilled now r w)) = timers w ++ [now + 60000].
Proof.
  unfold on_fulfilled. simpl. destruct (headers r) as [h|]; [|reflexivity].
  destruct (truthy_string (h !! RATELIMIT_HEADER)); reflexivity.
Qed.

(** Two responses less than a minute apart, then silence: the first timer
    runs within a minute of the second response and so does not reset, but
    it moves [lastRequest]; the second timer, unless it runs more than a
    minute late, then finds [lastRequest] ahead of the clock.  No timer is
    left, and [requestRemaining] is what the second response set. *)
Lemma two_responses_then_no_reset (t1 t2 f1 f2 : Z) (r1 r2 : response) (w : world) :
  timers w = [] ->
  t1 + 60000 <= f1 -> f1 <= t2 + 60000 ->
  t2 + 60000 <= f2 -> f2 <= t2 + 120000 ->
  let w2 := fst (on_fulfilled t2 r2 (fst (on_fulfilled t1 r1 w))) in
  requestRemaining (self (fire_timer f2 (fire_timer f1 w2))) = requestRemaining (self w2) /\
  timers (fire_timer f2 (fire_timer f1 w2)) = [].
Proof.
  intros Hnone Hdue1 Hearly1 Hdue2 Hearly2 w2.
  assert (Htimers : timers w2 = [t1 + 60000; t2 + 60000]).
  { unfold w2. rewrite !on_fulfilled_timers, Hnone. reflexivity. }
  assert (Hlast : time_value (lastRequest (self w2)) = Some t2) by reflexivity.
  rewrite (fire_timer_due f1 _ _ w2 Htimers Hdue1).
  set (wa := timer_callback f1 (mkWorld (self w2) [t2 + 60000] (sent w2))).
  assert (Hkeep : requestRemaining (self wa) = requestRemaining (self w2)).
  { exact (timer_callback_keeps f1 t2 (mkWorld (self w2) [t2 + 60000] (sent w2))
             Hlast Hearly1). }
  assert (Htimers_a : timers wa = [t2 + 60000]).
  { exact (timer_callback_timers f1 (mkWorld (self w2) [t2 + 60000] (sent w2))). }
  assert (Hlast_a : time_value (lastRequest (self wa)) = TimeClip (Some (t2 + 60000))).
  { unfold wa. rewrite timer_callback_lastRequest. reflexivity. }
  rewrite (fire_timer_due f2 _ _ wa Htimers_a Hdue2).
  split; [|apply timer_callback_timers].
  rewrite timer_callback_requestRemaining. cbn [self lastRequest].
  rewrite Hlast_a, <- Hkeep. unfold TimeClip.
  destruct (Z.abs (t2 + 60000) <=? 8640000000000000); [|reflexivity].
  cbn [plus_ms].
  destruct (Z.abs (t2 + 60000 + 60000) <=? 8640000000000000); [|reflexivity].
  destruct (Z.ltb_spec (t2 + 60000 + 60000) f2) as [Hlt|_]; [lia | reflexivity].
Qed.

(** ** What each interceptor does to the two rate-limit fields *)

Lemma on_fulfilled_lastRequest (now : Z) (r : response) (w : world) :
  lastRequest (self (fst (on_fulfilled now r w))) = Date_now now.
Proof. reflexivity. Qed.

Lemma on_fulfilled_requestRemaining (now : Z) (r : response) (w : world) :
  requestRemaining (self (fst (on_fulfilled now r w))) =
  match headers r with
  | Some h =>
      if truthy_string (h !! RATELIMIT_HEADER)
      then parseInt (to_string (h !! RATELIMIT_HEADER))
      else requestRemaining (self w)
  | None => requestRemaining (self w)
  end.
Proof.
  unfold on_fulfilled. simpl.
  destruct (headers r) as [h|]; [|reflexivity].
  destruct (truthy_string (h !! RATELIMIT_HEADER)); reflexivity.
Qed.

Lemma on_rejected_lastRequest (now : Z) (e : error) (w : world) :
  lastRequest (self (fst (on_rejected now e w))) = lastRequest (self w).
Proof.
  unfold on_rejected. simpl.
  destruct (isAxiosError e); [|reflexivity].
  destruct (err_response e) as [r|]; [|reflexivity].
  destruct (headers r); reflexivity.
Qed.

Lemma on_rejected_requestRemaining (now : Z) (e : error) (r : response)
    (h : gmap string string) (w : world) :
  isAxiosError e = true -> err_response e = Some r -> headers r = Some h ->
  requestRemaining (self (fst (on_rejected now e w)))
  = parseInt (to_string (h !! RATELIMIT_HEADER)).
Proof.
  intros Haxios Hresp Hhead. unfold on_rejected.
  rewrite Haxios, Hresp, Hhead. reflexivity.
Qed.

Lemma on_rejected_header_missing (now : Z) (e : error) (r : response)
    (h : gmap string string) (w : world) :
  isAxiosError e = true -> err_response e = Some r -> headers r = Some h ->
  h !! RATELIMIT_HEADER = None ->
  requestRemaining (self (fst (on_rejected now e w))) = NaN.
Proof.
  intros Haxios Hresp Hhead Hmiss.
  rewrite (on_rejected_requestRemaining now e r h w Haxios Hresp Hhead), Hmiss.
  apply parseInt_undefined.
Qed.

(** ** The claims *)

(** C1 (the code departs from it): the callback of the timer writes the
    shifted time back into [lastRequest].  After a single response at 0 ms
    the check leaves [lastRequest] at 60000 ms; after responses at 0 ms and
    1000 ms followed by silence, the first timer moves [lastRequest] to
    61000 ms, the second one then compares 121000 ms with the clock, and
    [requestRemaining] stays at 598 with no timer left to restore it. *)
Theorem timer_check_moves_lastRequest :
  lastRequest (self one_request_then_quiet) = Date_now 60000 /\
  requestRemaining (self one_request_then_quiet) = Int 600 /\
  requestRemaining (self two_requests_then_quiet) = Int 598 /\
  lastRequest (self two_requests_then_quiet) = Date_now 121000 /\
  timers two_requests_then_quiet = [].
Proof. vm_compute. repeat split; reflexivity. Qed.

(** C2 (the code departs from it): on an error response whose headers lack
    the rate-limit header, at 5000 ms on a client built at 0 ms, the error
    interceptor sets [requestRemaining] to NaN and leaves [lastRequest] at
    0 ms; with the header present it parses it, and [lastRequest] still
    stays at 0 ms. *)
Theorem error_interceptor_on_missing_header :
  err_response not_found = Some (mkResponse 404 (Some ∅) (VString "Not Found")) /\
  requestRemaining (self (fst (on_rejected 5000 not_found (create sample_options 0)))) = NaN /\
  lastRequest (self (fst (on_rejected 5000 not_found (create sample_options 0)))) = Date_now 0 /\
  requestRemaining (self (fst (on_rejected 5000 rate_limited (create sample_options 0)))) = Int 0 /\
  lastRequest (self (fst (on_rejected 5000 rate_limited (create sample_options 0)))) = Date_now 0.
Proof.
  split; [reflexivity|]. split.
  - eapply on_rejected_header_missing; reflexivity.
  - split; [apply on_rejected_lastRequest|].
    split; [|apply on_rejected_lastRequest].
    eapply eq_trans; [eapply on_rejected_requestRemaining; reflexivity|].
    reflexivity.
Qed.

(** C3 (the code departs from it): [requestRemaining] is 600 after
    construction, and after [getInvoiceById] fails with a 404 whose headers
    lack the rate-limit header it is NaN, so that the rate-limit check
    answers false even for one request. *)
Theorem requestRemaining_becomes_NaN :
  let w0 := create sample_options 0 in
  let w1 := fst (getInvoiceById (Int 12) (Int 345) "tok" 5000 (Failed not_found) w0) in
  requestRemaining (self w0) = Int 600 /\
  is_integer (requestRemaining (self w1)) = false /\
  snd (checkFacturationProRateLimit (Int 1) w1) = false.
Proof. vm_compute. repeat split; reflexivity. Qed.

(** C4, as stated, fails: [getTokenFromUri] on a fresh client changes
    [requestRemaining]. *)
Lemma getTokenFromUri_changes_requestRemaining :
  requestRemaining
    (self (fst (getTokenFromUri oauth_ok "https://app.example/callback?code=abc"
                  (create sample_options 0))))
  <> requestRemaining (self (create sample_options 0)).
Proof. simpl. discriminate. Qed.

(** C4, amended: the token methods leave [lastRequest] alone and subtract
    one from [requestRemaining]; [checkFacturationProRateLimit] leaves the
    world as it is; after an endpoint method the client and the timers are
    what the response interceptors alone leave. *)
Theorem rate_limit_fields_frame :
  (forall env uri w,
      lastRequest (self (fst (getTokenFromUri env uri w))) = lastRequest (self w) /\
      requestRemaining (self (fst (getTokenFromUri env uri w)))
      = sub (requestRemaining (self w)) (Int 1)) /\
  (forall env refreshToken w,
      lastRequest (self (fst (getNewAccessToken env refreshToken w))) = lastRequest (self w) /\
      requestRemaining (self (fst (getNewAccessToken env refreshToken w)))
      = sub (requestRemaining (self w)) (Int 1)) /\
  (forall requestNumber w, fst (checkFacturationProRateLimit requestNumber w) = w) /\
  (forall firmId options accessToken,
      touches_only_through_interceptors (getCustomersByFirmId firmId options accessToken)) /\
  (forall accessToken, touches_only_through_interceptors (getFirms accessToken)) /\
  (forall firmId customer accessToken,
      touches_only_through_interceptors (createCustomer firmId customer accessToken)) /\
  (forall firmId accessToken,
      touches_only_through_interceptors (getInvoicesByFirmId firmId accessToken)) /\
  (forall firmId invoiceId accessToken,
      touches_only_through_interceptors (getInvoiceById firmId invoiceId accessToken)) /\
  (forall firmId invoice accessToken,
      touches_only_through_interceptors (createInvoice firmId invoice accessToken)) /\
  (forall firmId invoiceId accessToken,
      touches_only_through_interceptors (createCredit firmId invoiceId accessToken)) /\
  (forall firmId invoiceId responseType accessToken,
      touches_only_through_interceptors (download firmId invoiceId responseType accessToken)).
Proof.
  split; [intros; split; reflexivity|].
  split; [intros; split; reflexivity|].
  split; [reflexivity|].
  repeat apply conj; intros; intros now o w;
    try (open_endpoint; rewrite ?then_request_fst; apply axios_request_client).
  open_getFirms. simpl.
  change w' with (fst (w', p)). rewrite <- Hreq. apply axios_request_client.
Qed.

(** C5: for every integer [n], [checkFacturationProRateLimit(n)] answers
    true exactly when [requestRemaining] is an integer that is at least [n],
    and the call leaves the world (both rate-limit fields, the timers, the
    requests sent) as it found it. *)
Theorem checkFacturationProRateLimit_spec (n : Z) (w : world) :
  (snd (checkFacturationProRateLimit (Int n) w) = true
   <-> exists z, requestRemaining (self w) = Int z /\ n <= z) /\
  fst (checkFacturationProRateLimit (Int n) w) = w.
Proof.
  unfold checkFacturationProRateLimit. simpl.
  split; [apply ge_true_iff | reflexivity].
Qed.

(** C6, as stated, fails: [getFirms] on an account body with a [firms]
    field resolves with that field and not with the body. *)
Lemma getFirms_does_not_return_body :
  snd (getFirms "tok" 0 (Fulfilled (mkResponse 200 (Some ∅) account_body))
         (create sample_options 0))
  <> Resolved account_body.
Proof.
  assert (Hres : snd (getFirms "tok" 0 (Fulfilled (mkResponse 200 (Some ∅) account_body))
                        (create sample_options 0))
                 = Resolved (VArray [VString "Acme"])) by reflexivity.
  rewrite Hres. unfold account_body. intros Heq. inversion Heq.
Qed.

(** C6, amended: the six endpoint methods other than [getFirms] resolve with
    the body of the response; [getFirms] resolves with the [firms] field of
    a truthy body and with the empty array for a falsy one. *)
Theorem endpoints_resolve_with_body :
  (forall firmId options accessToken,
      resolves_with_body (getCustomersByFirmId firmId options accessToken)) /\
  (forall firmId customer accessToken,
      resolves_with_body (createCustomer firmId customer accessToken)) /\
  (forall firmId accessToken,
      resolves_with_body (getInvoicesByFirmId firmId accessToken)) /\
  (forall firmId invoiceId accessToken,
      resolves_with_body (getInvoiceById firmId invoiceId accessToken)) /\
  (forall firmId invoice accessToken,
      resolves_with_body (createInvoice firmId invoice accessToken)) /\
  (forall firmId invoiceId accessToken,
      resolves_with_body (createCredit firmId invoiceId accessToken)) /\
  (forall accessToken now r w,
      snd (getFirms accessToken now (Fulfilled r) w)
      = Resolved (if truthy (data r)
                  then default VUndefined (prop_firms (data r))
                  else VArray [])).
Proof.
  repeat apply conj; intros;
    try (intros now r w; open_endpoint;
         rewrite then_request_snd, axios_request_settles; reflexivity).
  open_getFirms. simpl.
  change p with (snd (w', p)). rewrite <- Hreq, axios_request_settles. simpl.
  unfold responseHandler.
  destruct (truthy (data r)) eqn:Htruthy; [|reflexivity].
  destruct (truthy_prop_firms _ Htruthy) as [firms ->]. reflexivity.
Qed.

(** C7: every endpoint method hands exactly one request to axios, with the
    method of the operation and, for [createCustomer] and [createInvoice],
    the given entity as the body; when the identifiers are safe integers,
    which a template literal prints in full, the URL is the template of the
    operation with the access token as the [access_token] query parameter;
    and [getInvoiceById(12, 345, "tok")] issues
    GET https://www.facturation.pro/firms/12/invoices/345.json?access_token=tok. *)
Theorem endpoints_issue_one_request :
  ((forall firmId options accessToken,
       issues_one (getCustomersByFirmId firmId options accessToken) GET VUndefined) /\
   (forall accessToken, issues_one (getFirms accessToken) GET VUndefined) /\
   (forall firmId customer accessToken,
       issues_one (createCustomer firmId customer accessToken) POST customer) /\
   (forall firmId accessToken,
       issues_one (getInvoicesByFirmId firmId accessToken) GET VUndefined) /\
   (forall firmId invoiceId accessToken,
       issues_one (getInvoiceById firmId invoiceId accessToken) GET VUndefined) /\
   (forall firmId invoice accessToken,
       issues_one (createInvoice firmId invoice accessToken) POST invoice) /\
   (forall firmId invoiceId accessToken,
       issues_one (createCredit firmId invoiceId accessToken) POST VUndefined) /\
   (forall firmId invoiceId responseType accessToken,
       issues_one (download firmId invoiceId responseType accessToken) GET VUndefined)) /\
  (forall firmId options accessToken,
      printable firmId -> printable (api_id options) ->
      issues_exactly (getCustomersByFirmId firmId options accessToken)
        (mkRequest GET
           ("https://www.facturation.pro/firms/" +:+ number_to_string firmId
            +:+ "/customers.json?access_token=" +:+ accessToken
            +:+ "&api_id=" +:+ number_to_string (api_id options))
           VUndefined None)) /\
  (forall accessToken,
      issues_exactly (getFirms accessToken)
        (mkRequest GET
           ("https://www.facturation.pro/account.json?access_token=" +:+ accessToken)
           VUndefined None)) /\
  (forall firmId customer accessToken,
      printable firmId ->
      issues_exactly (createCustomer firmId customer accessToken)
        (mkRequest POST
           ("https://www.facturation.pro/firms/" +:+ number_to_string firmId
            +:+ "/customers.json?access_token=" +:+ accessToken)
           customer None)) /\
  (forall firmId accessToken,
      printable firmId ->
      issues_exactly (getInvoicesByFirmId firmId accessToken)
        (mkRequest GET
           ("https://www.facturation.pro/firms/" +:+ number_to_string firmId
            +:+ "/invoices.json?access_token=" +:+ accessToken)
           VUndefined None)) /\
  (forall firmId invoiceId accessToken,
      printable firmId -> printable invoiceId ->
      issues_exactly (getInvoiceById firmId invoiceId accessToken)
        (mkRequest GET
           ("https://www.facturation.pro/firms/" +:+ number_to_string firmId
            +:+ "/invoices/" +:+ number_to_string invoiceId
            +:+ ".json?access_token=" +:+ accessToken)
           VUndefined None)) /\
  (forall firmId invoice accessToken,
      printable firmId ->
      issues_exactly (createInvoice firmId invoice accessToken)
        (mkRequest POST
           ("https://www.facturation.pro/firms/" +:+ number_to_string firmId
            +:+ "/invoices.json?access_token=" +:+ accessToken)
           invoice None)) /\
  (forall firmId invoiceId accessToken,
      printable firmId -> printable invoiceId ->
      issues_exactly (createCredit firmId invoiceId accessToken)
        (mkRequest POST
           ("https://www.facturation.pro/firms/" +:+ number_to_string firmId
            +:+ "/invoices/" +:+ number_to_string invoiceId
            +:+ "/refund.json?access_token=" +:+ accessToken)
           VUndefined None)) /\
  (forall firmId invoiceId responseType accessToken,
      printable firmId -> printable invoiceId ->
      issues_exactly (download firmId invoiceId responseType accessToken)
        (mkRequest GET
           ("https://www.facturation.pro/firms/" +:+ number_to_string firmId
            +:+ "/invoices/" +:+ number_to_string invoiceId
            +:+ ".pdf?original=1&access_token=" +:+ accessToken)
           VUndefined
           (if truthy_string responseType then responseType else None))) /\
  issues_exactly (getInvoiceById (Int 12) (Int 345) "tok")
    (mkRequest GET
       "https://www.facturation.pro/firms/12/invoices/345.json?access_token=tok"
       VUndefined None).
Proof.
  split.
  - repeat apply conj; intros; intros now o w; eexists _, _;
      try (open_endpoint; rewrite ?then_request_fst; apply axios_request_sent).
    open_getFirms. simpl.
    change w' with (fst (w', p)). rewrite <- Hreq. apply axios_request_sent.
  - repeat apply conj; intros; intros now o w;
      try (open_endpoint; rewrite ?then_request_fst; apply axios_request_sent).
    open_getFirms. simpl.
    change w' with (fst (w', p)). rewrite <- Hreq. apply axios_request_sent.
Qed.

Lemma endpoints_issue_one_request_witness :
  issues_exactly (getInvoiceById (Int 2021) (Int 9007199254740991) "tok")
    (mkRequest GET
       ("https://www.facturation.pro/firms/" +:+ number_to_string (Int 2021)
        +:+ "/invoices/" +:+ number_to_string (Int 9007199254740991)
        +:+ ".json?access_token=" +:+ "tok")
       VUndefined None).
Proof.
  destruct endpoints_issue_one_request as (_ & _ & _ & _ & _ & Hinvoice & _).
  apply Hinvoice; simpl; unfold safe_integer, MAX_SAFE_INTEGER; lia.
Defined.

(** C8: the error interceptor rejects with the very error it was given,
    after setting [requestRemaining] from the rate-limit header of the error
    response when the error is an axios error that has a response with
    headers; every endpoint method whose request fails runs it: the header
    of the error response is read into [requestRemaining], and the promise
    of the method is rejected with that same error. *)
Theorem failures_reach_the_caller :
  (forall now e w, snd (on_rejected now e w) = Rejected e) /\
  (forall now e r h w,
      isAxiosError e = true -> err_response e = Some r -> headers r = Some h ->
      requestRemaining (self (fst (on_rejected now e w)))
      = parseInt (to_string (h !! RATELIMIT_HEADER))) /\
  (forall firmId options accessToken,
      rejects_with_cause (getCustomersByFirmId firmId options accessToken) /\
      reads_header_on_failure (getCustomersByFirmId firmId options accessToken)) /\
  (forall accessToken,
      rejects_with_cause (getFirms accessToken) /\
      reads_header_on_failure (getFirms accessToken)) /\
  (forall firmId customer accessToken,
      rejects_with_cause (createCustomer firmId customer accessToken) /\
      reads_header_on_failure (createCustomer firmId customer accessToken)) /\
  (forall firmId accessToken,
      rejects_with_cause (getInvoicesByFirmId firmId accessToken) /\
      reads_header_on_failure (getInvoicesByFirmId firmId accessToken)) /\
  (forall firmId invoiceId accessToken,
      rejects_with_cause (getInvoiceById firmId invoiceId accessToken) /\
      reads_header_on_failure (getInvoiceById firmId invoiceId accessToken)) /\
  (forall firmId invoice accessToken,
      rejects_with_cause (createInvoice firmId invoice accessToken) /\
      reads_header_on_failure (createInvoice firmId invoice accessToken)) /\
  (forall firmId invoiceId accessToken,
      rejects_with_cause (createCredit firmId invoiceId accessToken) /\
      reads_header_on_failure (createCredit firmId invoiceId accessToken)) /\
  (forall firmId invoiceId responseType accessToken,
      rejects_with_cause (download firmId invoiceId responseType accessToken) /\
      reads_header_on_failure (download firmId invoiceId responseType accessToken)).
Proof.
  assert (Hread : forall req now e r h w,
             isAxiosError e = true -> err_response e = Some r -> headers r = Some h ->
             requestRemaining (self (fst (axios_request req now (Failed e) w)))
             = parseInt (to_string (h !! RATELIMIT_HEADER))).
  { intros req now e r h w Haxios Hresp Hhead.
    rewrite (proj1 (axios_request_client req now (Failed e) w)).
    exact (on_rejected_requestRemaining now e r h w Haxios Hresp Hhead). }
  split; [reflexivity|].
  split; [exact on_rejected_requestRemaining|].
  repeat apply conj; intros; split.
  all: try (intros now e w; open_endpoint;
            rewrite ?then_request_snd, axios_request_settles; reflexivity).
  all: try (intros now e r h w Haxios Hresp Hhead; open_endpoint;
            rewrite ?then_request_fst; exact (Hread _ now e r h w Haxios Hresp Hhead)).
  intros now e w. open_getFirms. simpl.
  change p with (snd (w', p)). rewrite <- Hreq, axios_request_settles. reflexivity.
Qed.

Lemma failures_reach_the_caller_witness :
  requestRemaining
    (self (fst (getInvoiceById (Int 12) (Int 345) "tok" 5000 (Failed rate_limited)
                  (set_requestRemaining (Int 37) (create sample_options 0)))))
  = parseInt (to_string (Some "0")) /\
  snd (getInvoiceById (Int 12) (Int 345) "tok" 5000 (Failed rate_limited)
         (set_requestRemaining (Int 37) (create sample_options 0)))
  = Rejected rate_limited.
Proof.
  destruct failures_reach_the_caller as (_ & _ & _ & _ & _ & _ & Hinvoice & _).
  destruct (Hinvoice (Int 12) (Int 345) "tok") as [Hreject Hread].
  split.
  - exact (Hread 5000 rate_limited
             (mkResponse 429 (Some {[ RATELIMIT_HEADER := "0" ]})
                (VString "Too Many Requests"))
             {[ RATELIMIT_HEADER := "0" ]}
             (set_requestRemaining (Int 37) (create sample_options 0))
             eq_refl eq_refl eq_refl).
  - apply Hreject.
Defined.

(** C9: whatever the OAuth2 library answers, [getTokenFromUri] and
    [getNewAccessToken] subtract one from [requestRemaining] (a safe integer
    [z] becomes [z - 1]) and leave [lastRequest], the OAuth2 configuration,
    the timers and the requests sent as they were. *)
Theorem token_methods_decrement :
  (forall env uri w, decrements_only w (fst (getTokenFromUri env uri w))) /\
  (forall env refreshToken w, decrements_only w (fst (getNewAccessToken env refreshToken w))).
Proof.
  split; intros env arg w; unfold decrements_only; simpl;
    (repeat apply conj; try reflexivity; intros z -> _; apply sub_one_integer).
Qed.

Lemma token_methods_decrement_witness :
  requestRemaining
    (self (fst (getTokenFromUri oauth_down "https://app.example/callback?code=abc"
                  (create sample_options 0)))) = Int (600 - 1) /\
  requestRemaining
    (self (fst (getNewAccessToken oauth_ok "stored-refresh-token"
                  (create sample_options 0)))) = Int (600 - 1).
Proof.
  assert (Hsafe : safe_integer 600) by (unfold safe_integer, MAX_SAFE_INTEGER; lia).
  split.
  - exact (proj1 (proj2 (proj1 token_methods_decrement oauth_down
                           "https://app.example/callback?code=abc"
                           (create sample_options 0))) 600 eq_refl Hsafe).
  - exact (proj1 (proj2 (proj2 token_methods_decrement oauth_ok
                           "stored-refresh-token"
                           (create sample_options 0))) 600 eq_refl Hsafe).
Defined.

(** C10: when the account request succeeds, [getFirms] resolves, never
    rejects: with the [firms] field of the account object, and with the
    empty array when the body is falsy; when the request fails it is
    rejected with the error of the request. *)
Theorem getFirms_spec (accessToken : string) (now : Z) (w : world) :
  (forall r fields,
      data r = VObject fields ->
      snd (getFirms accessToken now (Fulfilled r) w)
      = Resolved (default VUndefined (fields !! "firms"))) /\
  (forall r,
      truthy (data r) = false ->
      snd (getFirms accessToken now (Fulfilled r) w) = Resolved (VArray [])) /\
  (forall r, exists firms, snd (getFirms accessToken now (Fulfilled r) w) = Resolved firms) /\
  (forall e, snd (getFirms accessToken now (Failed e) w) = Rejected e).
Proof.
  assert (Hrun : forall o,
    snd (getFirms accessToken now o w) =
    await (then_ (match o with Fulfilled r => Resolved r | Failed e => Rejected e end)
                 responseHandler)
          (fun account =>
             if truthy account
             then match prop_firms account with
                  | Some firms => Resolved firms
                  | None => Rejected TypeError
                  end
             else Resolved (VArray []))).
  { intros o. open_getFirms. simpl.
    change p with (snd (w', p)). rewrite <- Hreq, axios_request_settles. reflexivity. }
  repeat apply conj.
  - intros r fields Hbody. rewrite Hrun. simpl. unfold responseHandler.
    rewrite Hbody. reflexivity.
  - intros r Hfalsy. rewrite Hrun. simpl. unfold responseHandler.
    rewrite Hfalsy. reflexivity.
  - intros r. rewrite Hrun. simpl. unfold responseHandler.
    destruct (truthy (data r)) eqn:Htruthy.
    + destruct (truthy_prop_firms _ Htruthy) as [firms ->]. exists firms. reflexivity.
    + exists (VArray []). reflexivity.
  - intros e. rewrite Hrun. reflexivity.
Qed.

Lemma getFirms_spec_witness :
  snd (getFirms "tok" 0 (Fulfilled (mkResponse 200 (Some ∅) account_body))
         (create sample_options 0))
  = Resolved (default VUndefined
                (({[ "firms" := VArray [VString "Acme"] ]} : gmap string value) !! "firms")) /\
  snd (getFirms "tok" 0 (Fulfilled (mkResponse 200 (Some ∅) (VString "")))
         (create sample_options 0))
  = Resolved (VArray []).
Proof.
  split.
  - exact (proj1 (getFirms_spec "tok" 0 (create sample_options 0))
             (mkResponse 200 (Some ∅) account_body) _ eq_refl).
  - exact (proj1 (proj2 (getFirms_spec "tok" 0 (create sample_options 0)))
             (mkResponse 200 (Some ∅) (VString "")) eq_refl).
Defined.

(** ** Reading back a decimal header *)

Lemma digit_cases (d : N) :
  (d < 10)%N ->
  d = 0%N \/ d = 1%N \/ d = 2%N \/ d = 3%N \/ d = 4%N \/ d = 5%N \/ d = 6%N
  \/ d = 7%N \/ d = 8%N \/ d = 9%N.
Proof. lia. Qed.

Lemma digit_value_pretty (d : N) :
  (d < 10)%N -> digit_value (pretty_N_char d) = Some (Z.of_N d).
Proof.
  intros Hd.
  destruct (digit_cases d Hd) as [->|[->|[->|[->|[->|[->|[->|[->|[->| ->]]]]]]]]];
    reflexivity.
Qed.

Lemma parseInt_leading_digit (d : N) (r : string) :
  (d < 10)%N ->
  parseInt (String (pretty_N_char d) r) =
  match parse_digits (String (pretty_N_char d) r) None with
  | Some n => Int n
  | None => NaN
  end.
Proof.
  intros Hd.
  destruct (digit_cases d Hd) as [->|[->|[->|[->|[->|[->|[->|[->|[->| ->]]]]]]]]];
    unfold parseInt; cbn [trim_start pretty_N_char];
    change (is_white_space _) with false; cbv beta iota zeta;
    (destruct (parse_digits _ None) as [n|]; [rewrite Z.mul_1_l|]; reflexivity).
Qed.

Lemma parse_digits_stop (rest : string) (acc : option Z) :
  stops_digits rest -> parse_digits rest acc = acc.
Proof.
  destruct rest as [|c rest]; simpl; [reflexivity|]. intros ->. reflexivity.
Qed.

Lemma pretty_N_go_app (x : N) (s t : string) :
  pretty_N_go x s +:+ t = pretty_N_go x (s +:+ t).
Proof.
  revert s. induction (N.lt_wf_0 x) as [x _ IH]. intros s.
  destruct (N.eq_dec x 0%N) as [->|Hpos].
  - rewrite !pretty_N_go_0. reflexivity.
  - rewrite (pretty_N_go_step x s), (pretty_N_go_step x (s +:+ t)) by lia.
    rewrite IH by (apply N.div_lt; lia). reflexivity.
Qed.

Lemma pretty_N_go_head (x : N) (s : string) :
  (0 < x)%N -> exists d r, (d < 10)%N /\ pretty_N_go x s = String (pretty_N_char d) r.
Proof.
  revert s. induction (N.lt_wf_0 x) as [x _ IH]. intros s Hpos.
  rewrite pretty_N_go_step by exact Hpos.
  destruct (N.eq_dec (x `div` 10)%N 0%N) as [Hzero|Hnz].
  - rewrite Hzero, pretty_N_go_0. exists (x `mod` 10)%N, s.
    split; [apply N.mod_lt; lia | reflexivity].
  - apply IH; [apply N.div_lt; lia | apply N.neq_0_lt_0; exact Hnz].
Qed.

Lemma parse_digits_pretty_N_go (x : N) :
  (0 < x)%N ->
  exists k, 0 <= k /\ forall s acc,
    parse_digits (pretty_N_go x s) acc
    = parse_digits s (Some (default 0 acc * 10 ^ k + Z.of_N x)).
Proof.
  induction (N.lt_wf_0 x) as [x _ IH]. intros Hpos.
  assert (Hdigit : (x `mod` 10 < 10)%N) by (apply N.mod_lt; lia).
  assert (Hsplit : Z.of_N x = 10 * Z.of_N (x `div` 10) + Z.of_N (x `mod` 10)).
  { rewrite (N.div_mod x 10) at 1 by lia.
    rewrite N2Z.inj_add, N2Z.inj_mul. reflexivity. }
  destruct (N.eq_dec (x `div` 10)%N 0%N) as [Hzero|Hnz].
  - exists 1. split; [lia|]. intros s acc.
    rewrite pretty_N_go_step, Hzero, pretty_N_go_0 by exact Hpos.
    cbn [parse_digits]. rewrite (digit_value_pretty _ Hdigit).
    do 2 f_equal. rewrite Hsplit, Hzero.
    change (10 ^ 1) with 10. change (Z.of_N 0) with 0. ring.
  - destruct (IH (x `div` 10)%N) as (k & Hk & Hgo);
      [apply N.div_lt; lia | apply N.neq_0_lt_0; exact Hnz |].
    exists (k + 1). split; [lia|]. intros s acc.
    rewrite pretty_N_go_step, Hgo by exact Hpos.
    cbn [parse_digits]. rewrite (digit_value_pretty _ Hdigit).
    do 2 f_equal. rewrite Hsplit, Z.pow_add_r by lia.
    set (a := default 0 acc). cbn [default from_option]. unfold id.
    change (10 ^ 1) with 10. ring.
Qed.

Lemma parse_digits_pretty_positive (p : positive) (rest : string) :
  stops_digits rest ->
  parse_digits (pretty_N_go (Npos p) "" +:+ rest) None = Some (Zpos p).
Proof.
  intros Hstop. rewrite pretty_N_go_app.
  destruct (parse_digits_pretty_N_go (Npos p)) as (k & _ & Hgo); [lia|].
  rewrite Hgo. change ("" +:+ rest) with rest. rewrite (parse_digits_stop _ _ Hstop).
  f_equal.
Qed.

Lemma parseInt_number_to_string (z : Z) (rest : string) :
  stops_digits rest -> parseInt (number_to_string (Int z) +:+ rest) = Int z.
Proof.
  intros Hstop. unfold number_to_string. destruct z as [|p|p].
  - change (pretty 0 +:+ rest) with (String (pretty_N_char 0) rest).
    rewrite parseInt_leading_digit by lia.
    cbn [parse_digits]. rewrite digit_value_pretty by lia.
    rewrite (parse_digits_stop _ _ Hstop). reflexivity.
  - change (pretty (Zpos p)) with (pretty_N_go (Npos p) "").
    destruct (pretty_N_go_head (Npos p) "") as (d & r & Hd & Hhead); [lia|].
    pose proof (parse_digits_pretty_positive p rest Hstop) as Hparse.
    rewrite Hhead in Hparse |- *.
    change (String (pretty_N_char d) r +:+ rest)
      with (String (pretty_N_char d) (r +:+ rest)) in Hparse |- *.
    rewrite (parseInt_leading_digit d _ Hd), Hparse. reflexivity.
  - change (pretty (Zneg p)) with ("-" +:+ pretty_N_go (Npos p) "").
    change (("-" +:+ pretty_N_go (N.pos p) "") +:+ rest)
      with (String "-" (pretty_N_go (N.pos p) "" +:+ rest)).
    unfold parseInt. cbn [trim_start].
    change (is_white_space "-") with false. cbv beta iota zeta.
    rewrite (parse_digits_pretty_positive p rest Hstop). reflexivity.
Qed.

Lemma number_to_string_head (z : Z) (rest : string) :
  exists c r, number_to_string (Int z) +:+ rest = String c r.
Proof.
  unfold number_to_string. destruct z as [|p|p].
  - exists "0"%char, rest. reflexivity.
  - change (pretty (Zpos p)) with (pretty_N_go (Npos p) "").
    destruct (pretty_N_go_head (Npos p) "") as (d & r & _ & ->); [lia|].
    exists (pretty_N_char d), (r +:+ rest). reflexivity.
  - exists "-"%char, (pretty_N_go (Npos p) "" +:+ rest). reflexivity.
Qed.

Lemma decimal_truthy (s : string) : decimal s -> truthy_string (Some s) = true.
Proof.
  intros (z & rest & _ & -> & _).
  destruct (number_to_string_head z rest) as (c & r & ->). reflexivity.
Qed.

Lemma decimal_parseInt (s : string) :
  decimal s -> exists z, safe_integer z /\ parseInt s = Int z.
Proof.
  intros (z & rest & Hsafe & -> & Hstop). exists z.
  split; [exact Hsafe | apply parseInt_number_to_string, Hstop].
Qed.

Lemma safe_integer_intro (z : Z) :
  - 9007199254740991 <= z <= 9007199254740991 -> safe_integer z.
Proof. intros Hz. exact Hz. Qed.

(** X1: a successful response whose rate-limit header is the decimal
    writing of a safe integer [z], alone or followed by text that does not
    start with a digit, leaves [requestRemaining] at exactly [z], whatever
    it was before (NaN included). *)
Theorem success_header_sets_counter (now z : Z) (rest : string) (r : response)
    (h : gmap string string) (w : world) :
  safe_integer z ->
  headers r = Some h ->
  h !! RATELIMIT_HEADER = Some (number_to_string (Int z) +:+ rest) ->
  stops_digits rest ->
  requestRemaining (self (fst (on_fulfilled now r w))) = Int z.
Proof.
  intros _ Hhead Hlook Hstop.
  rewrite on_fulfilled_requestRemaining, Hhead, Hlook.
  destruct (number_to_string_head z rest) as (c & tail & Hshape).
  rewrite Hshape. cbn [truthy_string to_string]. rewrite <- Hshape.
  apply parseInt_number_to_string, Hstop.
Qed.

Lemma success_header_sets_counter_witness :
  requestRemaining
    (self (fst (on_fulfilled 5000
                  (mkResponse 200 (Some {[ RATELIMIT_HEADER := "599, 599" ]}) VNull)
                  (set_requestRemaining NaN (create sample_options 0)))))
  = Int 599.
Proof.
  apply (success_header_sets_counter 5000 599 ", 599"
           (mkResponse 200 (Some {[ RATELIMIT_HEADER := "599, 599" ]}) VNull)
           {[ RATELIMIT_HEADER := "599, 599" ]});
    [apply safe_integer_intro; lia | reflexivity | reflexivity | reflexivity].
Defined.

(** X2: an axios error whose response carries the rate-limit header as the
    decimal writing of a safe integer [z] leaves [requestRemaining] at [z],
    and the caller still gets the error. *)
Theorem error_header_sets_counter (now z : Z) (rest : string) (e : error)
    (r : response) (h : gmap string string) (w : world) :
  safe_integer z ->
  isAxiosError e = true -> err_response e = Some r -> headers r = Some h ->
  h !! RATELIMIT_HEADER = Some (number_to_string (Int z) +:+ rest) ->
  stops_digits rest ->
  requestRemaining (self (fst (on_rejected now e w))) = Int z /\
  snd (on_rejected now e w) = Rejected e.
Proof.
  intros _ Haxios Hresp Hhead Hlook Hstop. split; [|reflexivity].
  rewrite (on_rejected_requestRemaining now e r h w Haxios Hresp Hhead), Hlook.
  apply parseInt_number_to_string, Hstop.
Qed.

Lemma error_header_sets_counter_witness :
  requestRemaining (self (fst (on_rejected 5000 rate_limited (create sample_options 0))))
  = Int 0 /\
  snd (on_rejected 5000 rate_limited (create sample_options 0)) = Rejected rate_limited.
Proof.
  apply (error_header_sets_counter 5000 0 "" rate_limited
           (mkResponse 429 (Some {[ RATELIMIT_HEADER := "0" ]})
              (VString "Too Many Requests"))
           {[ RATELIMIT_HEADER := "0" ]});
    [apply safe_integer_intro; lia
    | reflexivity | reflexivity | reflexivity | reflexivity | exact I].
Defined.

(** X3: a successful response that has no headers, lacks the rate-limit
    header or carries it empty leaves [requestRemaining] as it was; it still
    sets [lastRequest] to the clock reading and arms a timer. *)
Theorem success_without_header_keeps_counter (now : Z) (r : response) (w : world) :
  headers r = None \/
  (exists h, headers r = Some h /\
             (h !! RATELIMIT_HEADER = None \/ h !! RATELIMIT_HEADER = Some "")) ->
  self (fst (on_fulfilled now r w))
  = mkFacturationPro (requestRemaining (self w)) (Date_now now) (facturationOauth2 (self w)) /\
  timers (fst (on_fulfilled now r w)) = timers w ++ [now + 60000].
Proof.
  intros [Hnone | (h & Hhead & [Hmiss | Hempty])]; unfold on_fulfilled;
    rewrite ?Hnone, ?Hhead, ?Hmiss, ?Hempty; split; reflexivity.
Qed.

Lemma success_without_header_keeps_counter_witness :
  self (fst (on_fulfilled 5000 (mkResponse 204 (Some ∅) (VString ""))
               (create sample_options 0)))
  = mkFacturationPro (Int 600) (Date_now 5000)
      (facturationOauth2 (self (create sample_options 0))) /\
  timers (fst (on_fulfilled 5000 (mkResponse 204 (Some ∅) (VString ""))
                 (create sample_options 0)))
  = [] ++ [5000 + 60000].
Proof.
  apply (success_without_header_keeps_counter 5000
           (mkResponse 204 (Some ∅) (VString "")) (create sample_options 0)).
  right. exists ∅. split; [reflexivity | left; reflexivity].
Defined.

(** X4: an error that is not an axios error, has no response, or whose
    response has no headers leaves both rate-limit fields as they were; a
    timer is armed all the same and the caller gets the error. *)
Theorem error_without_headers_keeps_client (now : Z) (e : error) (w : world) :
  isAxiosError e = false \/ err_response e = None \/
  (exists r, err_response e = Some r /\ headers r = None) ->
  self (fst (on_rejected now e w)) = self w /\
  timers (fst (on_rejected now e w)) = timers w ++ [now + 60000] /\
  snd (on_rejected now e w) = Rejected e.
Proof.
  intros Hcase. unfold on_rejected.
  destruct Hcase as [Hplain | [Hnone | (r & Hresp & Hhead)]].
  - rewrite Hplain. repeat apply conj; reflexivity.
  - rewrite Hnone. destruct (isAxiosError e); repeat apply conj; reflexivity.
  - rewrite Hresp, Hhead. destruct (isAxiosError e); repeat apply conj; reflexivity.
Qed.

Lemma error_without_headers_keeps_client_witness :
  self (fst (on_rejected 5000 network_error (create sample_options 0)))
  = self (create sample_options 0) /\
  timers (fst (on_rejected 5000 network_error (create sample_options 0)))
  = timers (create sample_options 0) ++ [5000 + 60000] /\
  snd (on_rejected 5000 network_error (create sample_options 0)) = Rejected network_error.
Proof.
  apply (error_without_headers_keeps_client 5000 network_error (create sample_options 0)).
  right. left. reflexivity.
Defined.

(** ** Timers armed and run *)

Lemma on_rejected_timers (now : Z) (e : error) (w : world) :
  timers (fst (on_rejected now e w)) = timers w ++ [now + 60000].
Proof.
  unfold on_rejected. simpl.
  destruct (isAxiosError e); [|reflexivity].
  destruct (err_response e) as [r|]; [|reflexivity].
  destruct (headers r); reflexivity.
Qed.

Lemma axios_request_timers (req : request) (now : Z) (o : outcome) (w : world) :
  timers (fst (axios_request req now o w)) = timers w ++ [now + 60000].
Proof.
  rewrite (proj2 (axios_request_client req now o w)).
  destruct o; [apply on_fulfilled_timers | apply on_rejected_timers].
Qed.

Lemma interceptors_timers (now : Z) (o : outcome) (w : world) :
  timers (fst (response_interceptors now o w)) = timers w ++ [now + 60000].
Proof. destruct o; [apply on_fulfilled_timers | apply on_rejected_timers]. Qed.

(** X6: the comparison of the check is strict: when the only pending timer
    runs exactly one minute after the response that armed it, it does not
    reset [requestRemaining], and no timer is left to do it later. *)
Theorem timer_on_deadline_keeps_counter (t : Z) (r : response) (w : world) :
  timers w = [] ->
  requestRemaining (self (fire_timer (t + 60000) (fst (on_fulfilled t r w))))
  = requestRemaining (self (fst (on_fulfilled t r w))) /\
  timers (fire_timer (t + 60000) (fst (on_fulfilled t r w))) = [].
Proof.
  intros Hnone.
  assert (Htimers : timers (fst (on_fulfilled t r w)) = [t + 60000]).
  { rewrite on_fulfilled_timers, Hnone. reflexivity. }
  rewrite (fire_timer_due _ _ _ _ Htimers (Z.le_refl _)).
  split; [|apply timer_callback_timers].
  exact (timer_callback_keeps (t + 60000) t
           (mkWorld (self (fst (on_fulfilled t r w))) [] (sent (fst (on_fulfilled t r w))))
           eq_refl (Z.le_refl _)).
Qed.

Lemma timer_on_deadline_keeps_counter_witness :
  requestRemaining
    (self (fire_timer (0 + 60000)
             (fst (on_fulfilled 0 (response_with_remaining "599" VNull)
                     (create sample_options 0)))))
  = requestRemaining
      (self (fst (on_fulfilled 0 (response_with_remaining "599" VNull)
                    (create sample_options 0)))) /\
  timers (fire_timer (0 + 60000)
            (fst (on_fulfilled 0 (response_with_remaining "599" VNull)
                    (create sample_options 0)))) = [].
Proof.
  apply (timer_on_deadline_keeps_counter 0 (response_with_remaining "599" VNull)
           (create sample_options 0)).
  reflexivity.
Defined.

Lemma run_checks_lastRequest (nows : list Z) (t : Z) (w : world) :
  time_value (lastRequest (self w)) = Some t ->
  - 8640000000000000 <= t ->
  t + 60000 * Z.of_nat (length nows) <= 8640000000000000 ->
  time_value (lastRequest (self (run_checks nows w)))
  = Some (t + 60000 * Z.of_nat (length nows)).
Proof.
  revert t w. induction nows as [|now nows IH]; intros t w Hlast Hlow Hhigh.
  - simpl. rewrite Hlast. f_equal. lia.
  - change (run_checks (now :: nows) w) with (run_checks nows (timer_callback now w)).
    rewrite length_cons, Nat2Z.inj_succ in Hhigh |- *.
    assert (Hshift : time_value (lastRequest (self (timer_callback now w)))
                     = Some (t + 60000)).
    { rewrite timer_callback_lastRequest, Hlast. cbn [time_value plus_ms].
      apply TimeClip_in_range. lia. }
    rewrite (IH (t + 60000) _ Hshift) by lia. f_equal. lia.
Qed.

(** X8: every run of the check moves [lastRequest] one minute forward: after
    [n] checks with no response in between it is [n] minutes past the last
    response, so that one more check at clock reading [f] resets
    [requestRemaining] exactly when [f] is more than [n + 1] minutes past
    that response. *)
Theorem repeated_checks_shift_lastRequest (nows : list Z) (f t : Z) (w : world) :
  time_value (lastRequest (self w)) = Some t ->
  - 8640000000000000 <= t ->
  t + 60000 * (Z.of_nat (length nows) + 1) <= 8640000000000000 ->
  time_value (lastRequest (self (run_checks nows w)))
  = Some (t + 60000 * Z.of_nat (length nows)) /\
  requestRemaining (self (timer_callback f (run_checks nows w)))
  = if t + 60000 * (Z.of_nat (length nows) + 1) <? f
    then Int 600
    else requestRemaining (self (run_checks nows w)).
Proof.
  intros Hlast Hlow Hhigh.
  assert (Hnow : time_value (lastRequest (self (run_checks nows w)))
                 = Some (t + 60000 * Z.of_nat (length nows))).
  { apply run_checks_lastRequest; [exact Hlast | exact Hlow | lia]. }
  split; [exact Hnow|].
  rewrite timer_callback_requestRemaining, Hnow. cbn [plus_ms].
  rewrite TimeClip_in_range by lia.
  replace (t + 60000 * Z.of_nat (length nows) + 60000)
    with (t + 60000 * (Z.of_nat (length nows) + 1)) by lia.
  reflexivity.
Qed.

Lemma repeated_checks_shift_lastRequest_witness :
  time_value (lastRequest (self (run_checks [60001; 61001] (create sample_options 1000))))
  = Some (1000 + 60000 * Z.of_nat (length [60001; 61001])) /\
  requestRemaining
    (self (timer_callback 181000 (run_checks [60001; 61001] (create sample_options 1000))))
  = if 1000 + 60000 * (Z.of_nat (length [60001; 61001]) + 1) <? 181000
    then Int 600
    else requestRemaining (self (run_checks [60001; 61001] (create sample_options 1000))).
Proof.
  apply (repeated_checks_shift_lastRequest [60001; 61001] 181000 1000
           (create sample_options 1000));
    [reflexivity | lia | simpl; lia].
Defined.

(** X9: the error interceptor does not move [lastRequest], so the timer it
    arms, when it is the only one pending and the error came after the time
    held in [lastRequest], always restores 600: what an error response set
    (0 after a 429, NaN without the header) lasts one minute at most. *)
Theorem error_response_then_reset (t0 t f : Z) (e : error) (w : world) :
  timers w = [] ->
  time_value (lastRequest (self w)) = Some t0 ->
  Z.abs (t0 + 60000) <= 8640000000000000 ->
  t0 < t -> t + 60000 <= f ->
  requestRemaining (self (fire_timer f (fst (on_rejected t e w)))) = Int 600.
Proof.
  intros Hnone Hlast Hrange Hafter Hdue.
  assert (Htimers : timers (fst (on_rejected t e w)) = [t + 60000]).
  { rewrite on_rejected_timers, Hnone. reflexivity. }
  rewrite (fire_timer_due _ _ _ _ Htimers Hdue).
  apply (timer_callback_resets f t0); [|exact Hrange | lia].
  cbn [self]. rewrite on_rejected_lastRequest. exact Hlast.
Qed.

Lemma error_response_then_reset_witness :
  requestRemaining
    (self (fire_timer 65000 (fst (on_rejected 5000 rate_limited (create sample_options 0)))))
  = Int 600.
Proof.
  apply (error_response_then_reset 0 5000 65000 rate_limited (create sample_options 0));
    [reflexivity | reflexivity | simpl; lia | lia | lia].
Defined.

(** ** What the endpoint methods hand back *)

Lemma getFirms_settles (accessToken : string) (now : Z) (o : outcome) (w : world) :
  snd (getFirms accessToken now o w) =
  await (then_ (match o with Fulfilled r => Resolved r | Failed e => Rejected e end)
               responseHandler)
        (fun account =>
           if truthy account
           then match prop_firms account with
                | Some firms => Resolved firms
                | None => Rejected TypeError
                end
           else Resolved (VArray [])).
Proof.
  open_getFirms. simpl.
  change p with (snd (w', p)). rewrite <- Hreq, axios_request_settles. reflexivity.
Qed.

(** X10: [download] resolves with the whole response (status and headers
    included), not with its body; [responseType] reaches axios only when it
    is a non-empty string, and the config is empty for [null] and for the
    empty string. *)
Theorem download_hands_back_response (firmId invoiceId : number)
    (responseType : option string) (accessToken : string) (now : Z) (w : world) :
  (forall r,
      snd (download firmId invoiceId responseType accessToken now (Fulfilled r) w)
      = Resolved r) /\
  (forall o,
      responseType = None \/ responseType = Some "" ->
      req_responseType <$> last (sent (fst (download firmId invoiceId responseType
                                              accessToken now o w)))
      = Some None) /\
  (forall o c t,
      responseType = Some (String c t) ->
      req_responseType <$> last (sent (fst (download firmId invoiceId responseType
                                              accessToken now o w)))
      = Some (Some (String c t))).
Proof.
  repeat apply conj.
  - intros r. unfold download, axios_get. apply axios_request_settles.
  - intros o Hcase. unfold download, axios_get.
    rewrite axios_request_sent, last_snoc.
    destruct Hcase as [-> | ->]; reflexivity.
  - intros o c t ->. unfold download, axios_get.
    rewrite axios_request_sent, last_snoc. reflexivity.
Qed.

Lemma download_hands_back_response_witness :
  req_responseType <$> last (sent (fst (download (Int 12) (Int 345) (Some "")
                                          "tok" 0 (Failed network_error)
                                          (create sample_options 0))))
  = Some None /\
  req_responseType <$> last (sent (fst (download (Int 12) (Int 345) (Some "arraybuffer")
                                          "tok" 0 (Failed network_error)
                                          (create sample_options 0))))
  = Some (Some "arraybuffer").
Proof.
  split.
  - apply (proj1 (proj2 (download_hands_back_response (Int 12) (Int 345) (Some "")
                           "tok" 0 (create sample_options 0)))).
    right. reflexivity.
  - apply (proj2 (proj2 (download_hands_back_response (Int 12) (Int 345)
                           (Some "arraybuffer") "tok" 0 (create sample_options 0)))).
    reflexivity.
Defined.

(** X11: when the account body is truthy but is not an object with a
    [firms] field (a string, a number, an array, [true], or an object
    without that field), [getFirms] resolves with [undefined], not with the
    empty array. *)
Theorem getFirms_body_without_firms (accessToken : string) (now : Z) (r : response)
    (w : world) :
  truthy (data r) = true ->
  (forall fields, data r = VObject fields -> fields !! "firms" = None) ->
  snd (getFirms accessToken now (Fulfilled r) w) = Resolved VUndefined.
Proof.
  intros Htruthy Hnofirms. rewrite getFirms_settles. simpl. unfold responseHandler.
  rewrite Htruthy.
  destruct (data r) as [| |b|f|s|items|fields]; try discriminate; try reflexivity.
  simpl. rewrite (Hnofirms fields eq_refl). reflexivity.
Qed.

Lemma getFirms_body_without_firms_witness :
  snd (getFirms "tok" 0 (Fulfilled (mkResponse 200 (Some ∅) (VString "<html></html>")))
         (create sample_options 0))
  = Resolved VUndefined.
Proof.
  apply (getFirms_body_without_firms "tok" 0
           (mkResponse 200 (Some ∅) (VString "<html></html>")) (create sample_options 0)).
  - reflexivity.
  - intros fields Hobject. discriminate Hobject.
Defined.

(** X12: right after a request answered with the rate-limit header that
    writes a safe integer [z], [checkFacturationProRateLimit(k)] is true
    exactly for [k <= z], whatever the counter was before the request. *)
Theorem check_after_response (req : request) (now z k : Z) (rest : string)
    (r : response) (h : gmap string string) (w : world) :
  safe_integer z ->
  headers r = Some h ->
  h !! RATELIMIT_HEADER = Some (number_to_string (Int z) +:+ rest) ->
  stops_digits rest ->
  snd (checkFacturationProRateLimit (Int k) (fst (axios_request req now (Fulfilled r) w)))
  = true <-> k <= z.
Proof.
  intros _ Hhead Hlook Hstop. unfold checkFacturationProRateLimit. cbn [snd].
  rewrite (proj1 (axios_request_client req now (Fulfilled r) w)).
  cbn [response_interceptors].
  rewrite on_fulfilled_requestRemaining, Hhead, Hlook.
  destruct (number_to_string_head z rest) as (c & tail & Hshape).
  rewrite Hshape. cbn [truthy_string to_string]. rewrite <- Hshape.
  rewrite (parseInt_number_to_string z rest Hstop). simpl. apply Z.leb_le.
Qed.

Lemma check_after_response_witness :
  snd (checkFacturationProRateLimit (Int 3)
         (fst (axios_request (mkRequest GET "https://www.facturation.pro/account.json"
                                VUndefined None)
                 0 (Fulfilled (response_with_remaining "2" VNull))
                 (create sample_options 0))))
  = true <-> 3 <= 2.
Proof.
  apply (check_after_response _ 0 2 3 "" (response_with_remaining "2" VNull)
           {[ RATELIMIT_HEADER := "2" ]});
    [apply safe_integer_intro; lia | reflexivity | reflexivity | exact I].
Defined.

(** ** Invariants of sequences of uses *)

Lemma run_cons (c : call) (cs : list call) (w : world) :
  run (c :: cs) w = run cs (step c w).
Proof. reflexivity. Qed.

(** An endpoint call changes the world as its one request does. *)
Lemma step_endpoint (c : call) (now : Z) (o : outcome) (w : world) :
  request_outcome c = Some (now, o) ->
  exists req, step c w = fst (axios_request req now o w).
Proof.
  destruct c; cbn [request_outcome step]; intros Hreq;
    try discriminate Hreq; injection Hreq as -> ->.
  1, 3-8:
    open_endpoint; rewrite ?then_request_fst; eexists; reflexivity.
  exists (mkRequest GET (API_BASE_URL +:+ "/account.json?access_token=" +:+ accessToken)
            VUndefined None).
  unfold getFirms, axios_get.
  destruct (axios_request _ now o w) as [w' p]. reflexivity.
Qed.

Lemma request_outcome_handled (c : call) (now : Z) (o : outcome) :
  request_outcome c = Some (now, o) -> response_handled c = Some (now, o).
Proof. destruct c; cbn; intros Hreq; try discriminate Hreq; exact Hreq. Qed.

(** A step that has a response handled leaves the client and its timers as
    the interceptors do, whoever made the request. *)
Lemma step_response (c : call) (now : Z) (o : outcome) (w : world) :
  response_handled c = Some (now, o) ->
  self (step c w) = self (fst (response_interceptors now o w)) /\
  timers (step c w) = timers (fst (response_interceptors now o w)).
Proof.
  intros Hhandled. destruct (request_outcome c) as [[now' o']|] eqn:Hreq.
  - rewrite (request_outcome_handled c now' o' Hreq) in Hhandled.
    injection Hhandled as -> ->.
    destruct (step_endpoint c now o w Hreq) as [req ->].
    apply axios_request_client.
  - destruct c; try discriminate Hreq; try discriminate Hhandled.
    injection Hhandled as -> ->. split; reflexivity.
Qed.

Lemma step_without_response (c : call) (w : world) :
  response_handled c = None ->
  is_token_call c = true \/ (exists n, c = CallCheckFacturationProRateLimit n) \/
  (exists now, c = TimerFires now).
Proof.
  destruct c; cbn; intros Hnone; try discriminate Hnone; eauto.
Qed.

Lemma interceptors_oauth (now : Z) (o : outcome) (w : world) :
  facturationOauth2 (self (fst (response_interceptors now o w)))
  = facturationOauth2 (self w).
Proof.
  destruct o as [r|e]; simpl.
  - destruct (headers r) as [h|]; [|reflexivity].
    destruct (truthy_string (h !! RATELIMIT_HEADER)); reflexivity.
  - unfold on_rejected. simpl.
    destruct (isAxiosError e); [|reflexivity].
    destruct (err_response e) as [r|]; [|reflexivity].
    destruct (headers r); reflexivity.
Qed.

Lemma fire_timer_oauth (now : Z) (w : world) :
  facturationOauth2 (self (fire_timer now w)) = facturationOauth2 (self w).
Proof.
  unfold fire_timer. destruct (timers w) as [|due rest]; [reflexivity|].
  destruct (due <=? now); [|reflexivity].
  unfold timer_callback, setTime. simpl. destruct (date_lt _ _); reflexivity.
Qed.

Lemma step_oauth (c : call) (w : world) :
  facturationOauth2 (self (step c w)) = facturationOauth2 (self w).
Proof.
  destruct (response_handled c) as [[now o]|] eqn:Hhandled.
  - rewrite (proj1 (step_response c now o w Hhandled)). apply interceptors_oauth.
  - destruct (step_without_response c w Hhandled) as [Htoken | [[n ->] | [now ->]]].
    + destruct c; try discriminate Htoken; reflexivity.
    + reflexivity.
    + apply fire_timer_oauth.
Qed.

(** X13: the OAuth2 client is set up once, with the token and
    authorization endpoints of facturation.pro, the credentials and redirect
    URI of the options and the single scope asked for; no sequence of calls,
    responses and timers changes it. *)
Theorem run_keeps_oauth_configuration (cs : list call) (options : FacturationProOptions)
    (now : Z) :
  facturationOauth2 (self (run cs (create options now)))
  = mkClientOAuth2 (clientId options) (clientSecret options)
      "https://www.facturation.pro/oauth/token"
      "https://www.facturation.pro/oauth/authorize"
      (redirectUri options) [scope_name (scope options)].
Proof.
  assert (Hkeep : forall w, facturationOauth2 (self (run cs w)) = facturationOauth2 (self w)).
  { induction cs as [|c cs IH]; intros w; [reflexivity|].
    rewrite run_cons, IH. apply step_oauth. }
  rewrite Hkeep. reflexivity.
Qed.

(** X14: token calls add up and have no floor at zero: after [n] calls of
    [getTokenFromUri] and [getNewAccessToken] in any order, a counter [z] is
    [z - n], below zero too, as long as [z] and [z - n] are safe integers;
    [lastRequest], the timers and the requests sent through axios are as
    before. *)
Theorem token_calls_accumulate (cs : list call) (z : Z) (w : world) :
  forallb is_token_call cs = true ->
  requestRemaining (self w) = Int z ->
  safe_integer z -> safe_integer (z - Z.of_nat (length cs)) ->
  requestRemaining (self (run cs w)) = Int (z - Z.of_nat (length cs)) /\
  lastRequest (self (run cs w)) = lastRequest (self w) /\
  timers (run cs w) = timers w /\
  sent (run cs w) = sent w.
Proof.
  intros Htokens Hcounter _ _. revert z w Htokens Hcounter.
  induction cs as [|c cs IH]; intros z w Htokens Hcounter.
  - simpl. rewrite Hcounter, Z.sub_0_r. repeat apply conj; reflexivity.
  - cbn [forallb] in Htokens. apply andb_prop in Htokens as [Htoken Htokens].
    rewrite run_cons, length_cons, Nat2Z.inj_succ.
    assert (Hstep : requestRemaining (self (step c w)) = Int (z - 1) /\
                    lastRequest (self (step c w)) = lastRequest (self w) /\
                    timers (step c w) = timers w /\ sent (step c w) = sent w).
    { destruct c; try discriminate Htoken; simpl; rewrite Hcounter;
        repeat apply conj; reflexivity. }
    destruct Hstep as (Hone & Hlast & Htimers & Hsent).
    destruct (IH (z - 1) (step c w) Htokens Hone) as (Hall & Hlast' & Htimers' & Hsent').
    rewrite Hall, Hlast', Htimers', Hsent', Hlast, Htimers, Hsent.
    repeat apply conj; try reflexivity. f_equal. lia.
Qed.

Lemma token_calls_accumulate_witness :
  requestRemaining
    (self (run [CallGetTokenFromUri oauth_ok "https://app.example/callback?code=abc";
                CallGetNewAccessToken oauth_down "stored-refresh-token"]
             (set_requestRemaining (Int 1) (create sample_options 0))))
  = Int (1 - Z.of_nat 2).
Proof.
  apply (token_calls_accumulate
           [CallGetTokenFromUri oauth_ok "https://app.example/callback?code=abc";
            CallGetNewAccessToken oauth_down "stored-refresh-token"]
           1 (set_requestRemaining (Int 1) (create sample_options 0)));
    [reflexivity | reflexivity
    | apply safe_integer_intro; lia | apply safe_integer_intro; simpl; lia].
Defined.

Lemma interceptors_integer (now : Z) (o : outcome) (w : world) :
  numeric_outcome o ->
  is_integer (requestRemaining (self w)) = true ->
  is_integer (requestRemaining (self (fst (response_interceptors now o w)))) = true.
Proof.
  intros Hnumeric Hint. destruct o as [r|e]; cbn [response_interceptors numeric_outcome] in *.
  - rewrite on_fulfilled_requestRemaining.
    destruct (headers r) as [h|] eqn:Hhead; [|exact Hint].
    destruct (truthy_string (h !! RATELIMIT_HEADER)) eqn:Htruthy; [|exact Hint].
    destruct (Hnumeric h eq_refl Htruthy) as (s & Hlook & Hdec).
    rewrite Hlook. destruct (decimal_parseInt s Hdec) as (z & _ & Hparse).
    cbn [to_string]. rewrite Hparse. reflexivity.
  - unfold on_rejected. cbn [fst self].
    destruct (isAxiosError e); [|exact Hint].
    destruct (err_response e) as [r|]; [|exact Hint].
    destruct (headers r) as [h|] eqn:Hhead; [|exact Hint].
    destruct (Hnumeric eq_refl r h eq_refl Hhead) as (s & Hlook & Hdec).
    rewrite Hlook. destruct (decimal_parseInt s Hdec) as (z & _ & Hparse).
    cbn [to_string set_requestRemaining resetRequestRemainingTimeout self requestRemaining].
    rewrite Hparse. reflexivity.
Qed.

Lemma fire_timer_integer (now : Z) (w : world) :
  is_integer (requestRemaining (self w)) = true ->
  is_integer (requestRemaining (self (fire_timer now w))) = true.
Proof.
  intros Hint. unfold fire_timer. destruct (timers w) as [|due rest]; [exact Hint|].
  destruct (due <=? now); [|exact Hint].
  rewrite timer_callback_requestRemaining. cbn [self lastRequest requestRemaining].
  destruct (TimeClip _) as [shifted|]; [|exact Hint].
  destruct (shifted <? now); [reflexivity | exact Hint].
Qed.

Lemma step_integer (c : call) (w : world) :
  numeric_call c ->
  is_integer (requestRemaining (self w)) = true ->
  is_integer (requestRemaining (self (step c w))) = true.
Proof.
  unfold numeric_call. intros Hnumeric Hint.
  destruct (response_handled c) as [[now o]|] eqn:Hhandled.
  - rewrite (proj1 (step_response c now o w Hhandled)).
    apply interceptors_integer; [exact Hnumeric | exact Hint].
  - destruct (step_without_response c w Hhandled) as [Htoken | [[n ->] | [now ->]]].
    + destruct c; try discriminate Htoken; simpl;
        (destruct (requestRemaining (self w)); [reflexivity | discriminate Hint]).
    + exact Hint.
    + apply fire_timer_integer, Hint.
Qed.

(** X15: as long as every header the interceptors of the client parse is the
    decimal writing of a safe integer (on an axios error response with
    headers it has to be there), be the response one to its own request or
    to a request made elsewhere in the process, [requestRemaining] stays an
    integer through any sequence of endpoint calls, token calls, rate-limit
    checks, responses and timers. *)
Theorem run_keeps_integer (cs : list call) (w : world) :
  Forall numeric_call cs ->
  is_integer (requestRemaining (self w)) = true ->
  is_integer (requestRemaining (self (run cs w))) = true.
Proof.
  intros Hall. revert w. induction Hall as [|c cs Hc _ IH]; intros w Hint.
  - exact Hint.
  - rewrite run_cons. apply IH, step_integer; [exact Hc | exact Hint].
Qed.

Lemma run_keeps_integer_witness :
  is_integer
    (requestRemaining
       (self (run [CallGetFirms "tok" 0 (Fulfilled (response_with_remaining "599" account_body));
                   CallGetTokenFromUri oauth_down "https://app.example/callback?code=abc";
                   OtherResponse 5000 (Failed rate_limited);
                   TimerFires 65000]
                (create sample_options 0))))
  = true.
Proof.
  apply run_keeps_integer; [|reflexivity].
  constructor.
  { cbn. intros h Hhead _. injection Hhead as <-.
    exists "599". split; [reflexivity|].
    exists 599, "". split; [apply safe_integer_intro; lia|].
    split; [reflexivity | exact I]. }
  constructor; [exact I|].
  constructor.
  { cbn. intros _ r h Hresp Hhead. injection Hresp as <-. injection Hhead as <-.
    exists "0". split; [reflexivity|].
    exists 0, "". split; [apply safe_integer_intro; lia|].
    split; [reflexivity | exact I]. }
  constructor; [exact I | constructor].
Defined.




(** X7: when the interceptors of a client handle a successful response at
    [t], to its own request or to one made elsewhere, while the client has
    no timer pending, and the timer then armed runs at a clock reading past
    [t] plus one minute with no response handled in between,
    [requestRemaining] is 600 afterwards, whatever the response had set,
    and no timer is left. *)
Theorem quiet_minute_restores_budget (c : call) (t f : Z) (r : response) (w : world) :
  response_handled c = Some (t, Fulfilled r) ->
  timers w = [] ->
  Z.abs (t + 60000) <= 8640000000000000 ->
  t + 60000 < f ->
  requestRemaining (self (run [c; TimerFires f] w)) = Int 600 /\
  timers (run [c; TimerFires f] w) = [].
Proof.
  intros Hhandled Hnone Hrange Hlate. cbn [run fold_left]. cbn [step].
  destruct (step_response c t (Fulfilled r) w Hhandled) as [Hself Htimers].
  assert (Hpending : timers (step c w) = [t + 60000]).
  { rewrite Htimers, interceptors_timers, Hnone. reflexivity. }
  rewrite (fire_timer_due f _ _ _ Hpending) by lia.
  split; [|apply timer_callback_timers].
  apply (timer_callback_resets f t); [|exact Hrange | exact Hlate].
  cbn [self]. rewrite Hself. reflexivity.
Qed.

Lemma quiet_minute_restores_budget_witness :
  requestRemaining
    (self (run [CallGetFirms "tok" 0 (Fulfilled (response_with_remaining "12" account_body));
                TimerFires 60001]
             (create sample_options 0)))
  = Int 600 /\
  timers (run [CallGetFirms "tok" 0 (Fulfilled (response_with_remaining "12" account_body));
               TimerFires 60001]
            (create sample_options 0)) = [].
Proof.
  apply (quiet_minute_restores_budget _ 0 60001 (response_with_remaining "12" account_body));
    [reflexivity | reflexivity | simpl; lia | lia].
Defined.

(** ** Several clients in one process *)

Lemma process_step_lookup (p : process) (i j : nat) (c : call) (wi wj : world) :
  p !! i = Some wi -> p !! j = Some wj ->
  process_step i c p !! j
  = Some (if Nat.eqb j i then step c wj
          else match response_handled c with
               | Some (now, o) => step (OtherResponse now o) wj
               | None => wj
               end).
Proof.
  intros Hi Hj. unfold process_step. rewrite Hi. cbv beta iota.
  rewrite list_lookup_imap, Hj. reflexivity.
Qed.

(** X5: the interceptors sit on the axios instance that all clients share:
    when one client makes an endpoint call, whether the request succeeds or
    fails, every client of the process, the caller and the others alike,
    gets exactly one more timer, due one minute after the response is
    handled; its earlier timers stay in place. *)
Theorem endpoints_arm_one_timer (p : process) (i j : nat) (c : call) (now : Z)
    (o : outcome) (wi wj : world) :
  request_outcome c = Some (now, o) ->
  p !! i = Some wi -> p !! j = Some wj ->
  exists wj', process_step i c p !! j = Some wj' /\
              timers wj' = timers wj ++ [now + 60000].
Proof.
  intros Hreq Hi Hj. rewrite (process_step_lookup p i j c wi wj Hi Hj).
  rewrite (request_outcome_handled c now o Hreq).
  eexists. split; [reflexivity|].
  destruct (Nat.eqb j i).
  - rewrite (proj2 (step_response c now o wj (request_outcome_handled c now o Hreq))).
    apply interceptors_timers.
  - apply interceptors_timers.
Qed.

Lemma endpoints_arm_one_timer_witness :
  exists w1, process_step 0 (CallGetInvoiceById (Int 12) (Int 345) "tok" 5000
                               (Failed not_found)) two_clients !! 1%nat = Some w1 /\
             timers w1 = timers (create sample_options 1000) ++ [5000 + 60000].
Proof.
  apply (endpoints_arm_one_timer two_clients 0 1 _ 5000 (Failed not_found)
           (create sample_options 0) (create sample_options 1000));
    reflexivity.
Defined.

(** ** Bursts of requests *)

Lemma pending_pair_no_reset (t1 t2 f1 f2 : Z) (w2 : world) :
  timers w2 = [t1 + 60000; t2 + 60000] ->
  time_value (lastRequest (self w2)) = Some t2 ->
  t1 + 60000 <= f1 -> f1 <= t2 + 60000 ->
  t2 + 60000 <= f2 -> f2 <= t2 + 120000 ->
  requestRemaining (self (fire_timer f2 (fire_timer f1 w2))) = requestRemaining (self w2) /\
  timers (fire_timer f2 (fire_timer f1 w2)) = [].
Proof.
  intros Htimers Hlast Hdue1 Hearly1 Hdue2 Hearly2.
  rewrite (fire_timer_due f1 _ _ w2 Htimers Hdue1).
  set (wa := timer_callback f1 (mkWorld (self w2) [t2 + 60000] (sent w2))).
  assert (Hkeep : requestRemaining (self wa) = requestRemaining (self w2)).
  { exact (timer_callback_keeps f1 t2 (mkWorld (self w2) [t2 + 60000] (sent w2))
             Hlast Hearly1). }
  assert (Htimers_a : timers wa = [t2 + 60000]).
  { exact (timer_callback_timers f1 (mkWorld (self w2) [t2 + 60000] (sent w2))). }
  assert (Hlast_a : time_value (lastRequest (self wa)) = TimeClip (Some (t2 + 60000))).
  { unfold wa. rewrite timer_callback_lastRequest. cbn [self lastRequest].
    rewrite Hlast. reflexivity. }
  rewrite (fire_timer_due f2 _ _ wa Htimers_a Hdue2).
  split; [|apply timer_callback_timers].
  rewrite timer_callback_requestRemaining. cbn [self lastRequest].
  rewrite Hlast_a, <- Hkeep. unfold TimeClip.
  destruct (Z.abs (t2 + 60000) <=? 8640000000000000); [|reflexivity].
  cbn [plus_ms].
  destruct (Z.abs (t2 + 60000 + 60000) <=? 8640000000000000); [|reflexivity].
  destruct (Z.ltb_spec (t2 + 60000 + 60000) f2) as [Hlt|_]; [lia | reflexivity].
Qed.

(** X17: two requests answered successfully less than a minute apart, then
    silence: when the first timer runs no later than a minute after the
    second response and the second timer runs less than a minute late,
    neither resets [requestRemaining], which keeps what the second response
    left, and no timer is pending any more. *)
Theorem burst_then_no_reset (req1 req2 : request) (t1 t2 f1 f2 : Z)
    (r1 r2 : response) (w : world) :
  timers w = [] ->
  t1 + 60000 <= f1 -> f1 <= t2 + 60000 ->
  t2 + 60000 <= f2 -> f2 <= t2 + 120000 ->
  let w2 := fst (axios_request req2 t2 (Fulfilled r2)
                   (fst (axios_request req1 t1 (Fulfilled r1) w))) in
  requestRemaining (self (fire_timer f2 (fire_timer f1 w2))) = requestRemaining (self w2) /\
  timers (fire_timer f2 (fire_timer f1 w2)) = [].
Proof.
  intros Hnone Hdue1 Hearly1 Hdue2 Hearly2 w2.
  apply (pending_pair_no_reset t1 t2); try assumption.
  - unfold w2. rewrite !axios_request_timers, Hnone. reflexivity.
  - unfold w2. rewrite (proj1 (axios_request_client req2 t2 (Fulfilled r2) _)).
    reflexivity.
Qed.

Lemma burst_then_no_reset_witness :
  let w2 := fst (axios_request (mkRequest GET "https://www.facturation.pro/account.json"
                                  VUndefined None)
                   1000 (Fulfilled (response_with_remaining "598" VNull))
                   (fst (axios_request (mkRequest GET "https://www.facturation.pro/account.json"
                                          VUndefined None)
                           0 (Fulfilled (response_with_remaining "599" VNull))
                           (create sample_options 0)))) in
  requestRemaining (self (fire_timer 61001 (fire_timer 60001 w2)))
  = requestRemaining (self w2) /\
  timers (fire_timer 61001 (fire_timer 60001 w2)) = [].
Proof.
  apply (burst_then_no_reset _ _ 0 1000 60001 61001); [reflexivity | lia | lia | lia | lia].
Defined.

(** ** Reading the arguments back from the URL *)

Lemma parseInt_number_prefix (n : number) (rest : string) :
  stops_digits rest -> parseInt (number_to_string n +:+ rest) = n.
Proof.
  intros Hstop. destruct n as [z|]; [apply parseInt_number_to_string, Hstop|].
  reflexivity.
Qed.

Lemma number_prefix_inj (n1 n2 : number) (rest1 rest2 : string) :
  stops_digits rest1 -> stops_digits rest2 ->
  number_to_string n1 +:+ rest1 = number_to_string n2 +:+ rest2 ->
  n1 = n2 /\ rest1 = rest2.
Proof.
  intros Hstop1 Hstop2 Heq.
  assert (Hn : n1 = n2).
  { rewrite <- (parseInt_number_prefix n1 rest1 Hstop1), Heq.
    apply parseInt_number_prefix, Hstop2. }
  subst n2. split; [reflexivity|]. exact (String.app_inj _ _ _ Heq).
Qed.

Ltac strip_literal H := apply String.app_inj in H.

Ltac read_number H :=
  apply number_prefix_inj in H; [destruct H as [-> H] | reflexivity | reflexivity].

(** X18: for identifiers that are safe integers, the request of
    [getInvoiceById], [createCredit], [download], [getInvoicesByFirmId],
    [createCustomer] and [createInvoice] tells the arguments apart: two
    calls that differ in the firm, the invoice, the access token or the
    entity never hand the same request to axios. *)
Theorem request_determines_arguments :
  (forall f1 i1 tok1 f2 i2 tok2 now1 o1 w1 now2 o2 w2,
      printable f1 -> printable i1 -> printable f2 -> printable i2 ->
      (f1, i1, tok1) <> (f2, i2, tok2) ->
      last (sent (fst (getInvoiceById f1 i1 tok1 now1 o1 w1)))
      <> last (sent (fst (getInvoiceById f2 i2 tok2 now2 o2 w2)))) /\
  (forall f1 i1 tok1 f2 i2 tok2 now1 o1 w1 now2 o2 w2,
      printable f1 -> printable i1 -> printable f2 -> printable i2 ->
      (f1, i1, tok1) <> (f2, i2, tok2) ->
      last (sent (fst (createCredit f1 i1 tok1 now1 o1 w1)))
      <> last (sent (fst (createCredit f2 i2 tok2 now2 o2 w2)))) /\
  (forall f1 i1 rt1 tok1 f2 i2 rt2 tok2 now1 o1 w1 now2 o2 w2,
      printable f1 -> printable i1 -> printable f2 -> printable i2 ->
      (f1, i1, tok1) <> (f2, i2, tok2) ->
      last (sent (fst (download f1 i1 rt1 tok1 now1 o1 w1)))
      <> last (sent (fst (download f2 i2 rt2 tok2 now2 o2 w2)))) /\
  (forall f1 tok1 f2 tok2 now1 o1 w1 now2 o2 w2,
      printable f1 -> printable f2 ->
      (f1, tok1) <> (f2, tok2) ->
      last (sent (fst (getInvoicesByFirmId f1 tok1 now1 o1 w1)))
      <> last (sent (fst (getInvoicesByFirmId f2 tok2 now2 o2 w2)))) /\
  (forall f1 c1 tok1 f2 c2 tok2 now1 o1 w1 now2 o2 w2,
      printable f1 -> printable f2 ->
      (f1, c1, tok1) <> (f2, c2, tok2) ->
      last (sent (fst (createCustomer f1 c1 tok1 now1 o1 w1)))
      <> last (sent (fst (createCustomer f2 c2 tok2 now2 o2 w2)))) /\
  (forall f1 v1 tok1 f2 v2 tok2 now1 o1 w1 now2 o2 w2,
      printable f1 -> printable f2 ->
      (f1, v1, tok1) <> (f2, v2, tok2) ->
      last (sent (fst (createInvoice f1 v1 tok1 now1 o1 w1)))
      <> last (sent (fst (createInvoice f2 v2 tok2 now2 o2 w2)))).
Proof.
  repeat apply conj; intros until w2; open_endpoint;
    rewrite ?then_request_fst, !axios_request_sent, !last_snoc;
    intros; intros Hreq;
    match goal with Hne : _ <> _ |- _ => apply Hne end.
  - injection Hreq as Hurl. read_number Hurl. strip_literal Hurl.
    read_number Hurl. strip_literal Hurl. subst. reflexivity.
  - injection Hreq as Hurl. read_number Hurl. strip_literal Hurl.
    read_number Hurl. strip_literal Hurl. subst. reflexivity.
  - injection Hreq as Hurl _. read_number Hurl. strip_literal Hurl.
    read_number Hurl. strip_literal Hurl. subst. reflexivity.
  - injection Hreq as Hurl. read_number Hurl. strip_literal Hurl.
    subst. reflexivity.
  - injection Hreq as Hurl Hdata. read_number Hurl. strip_literal Hurl.
    subst. reflexivity.
  - injection Hreq as Hurl Hdata. read_number Hurl. strip_literal Hurl.
    subst. reflexivity.
Qed.

Lemma request_determines_arguments_witness :
  last (sent (fst (getInvoiceById (Int 12) (Int 345) "tok" 0 (Failed network_error)
                     (create sample_options 0))))
  <> last (sent (fst (getInvoiceById (Int 123) (Int 45) "tok" 5000
                        (Fulfilled (response_with_remaining "599" VNull))
                        (create sample_options 0)))).
Proof.
  apply (proj1 request_determines_arguments);
    try (apply safe_integer_intro; lia).
  intros Hsame. discriminate Hsame.
Defined.
